(** * motion-sense-predict: the recording form and its telemetry service

    A shallow embedding of
      - [src/components/data-collection/DataCollectionForm.tsx]
        (the React component [DataCollectionForm]),
      - the class [MQTTService] that the form drives, and
      - [src/services/mqttService.ts] (the module-level broker helpers),
    and of the page they make together (module [Page]), followed by
    the properties of the specification that concern them.

    JavaScript values are modelled as follows.
      - Strings are sequences of code points below 256 (Latin-1), so that
        [trim] and [toLowerCase] are the ECMAScript functions restricted
        to that range.
      - Numbers that hold sensor readings are rationals; the binary64
        rounding of an arithmetic result is the [round] field of the
        class [Engine].  Counts, identifiers and clock readings are
        integers.
      - React state is a record; an event handler is a function on that
        record (a handler runs to completion and the component re-renders
        before the next event is dispatched).
      - [setTimeout]/[setInterval] are a queue of timers inside the
        [World] the service lives in; the clock advances one millisecond
        at a time. *)

From Stdlib Require Import List String Ascii Bool Arith ZArith QArith Qround Lia Lqa.
From Stdlib Require Import DecimalString Sorted.
Import ListNotations.

Local Open Scope string_scope.
Local Open Scope list_scope.
Local Open Scope nat_scope.

(* ================================================================== *)
(** ** ECMAScript built-ins used by the sources                        *)
(* ================================================================== *)

Module JS.

(** [WhiteSpace] and [LineTerminator] code points below 256:
    TAB, LF, VT, FF, CR, SP and NBSP. *)
Definition isWhiteSpace (c : ascii) : bool :=
  let n := nat_of_ascii c in
  ((9 <=? n) && (n <=? 13)) || (n =? 32) || (n =? 160).

(** Simple lower-case mapping below 256: A-Z, and U+00C0..U+00DE
    without the multiplication sign U+00D7, move up by 32. *)
Definition toLowerChar (c : ascii) : ascii :=
  let n := nat_of_ascii c in
  if ((65 <=? n) && (n <=? 90))
     || ((192 <=? n) && (n <=? 222) && negb (n =? 215))
  then ascii_of_nat (n + 32)
  else c.

Fixpoint toLowerCase (s : string) : string :=
  match s with
  | EmptyString => EmptyString
  | String c s' => String (toLowerChar c) (toLowerCase s')
  end.

Fixpoint trimStart (s : string) : string :=
  match s with
  | EmptyString => EmptyString
  | String c s' => if isWhiteSpace c then trimStart s' else s
  end.

Fixpoint trimEnd (s : string) : string :=
  match s with
  | EmptyString => EmptyString
  | String c s' =>
      match trimEnd s' with
      | EmptyString => if isWhiteSpace c then EmptyString else String c EmptyString
      | t => String c t
      end
  end.

(** [String.prototype.trim] *)
Definition trim (s : string) : string := trimEnd (trimStart s).

(** Truthiness of a string: the empty string is the only falsy one. *)
Definition truthy (s : string) : bool :=
  match s with EmptyString => false | _ => true end.

(** [Array.prototype.includes] on an array of strings. *)
Definition includes (l : list string) (x : string) : bool :=
  existsb (String.eqb x) l.

(** [Array.prototype.slice(start)] with an integer [start]: a negative
    [start] counts from the end, and the result is clamped to the
    array. *)
Definition slice {A} (start : Z) (l : list A) : list A :=
  let len := Z.of_nat (List.length l) in
  let k := if (start <? 0)%Z then Z.max (len + start) 0 else Z.min start len in
  skipn (Z.to_nat k) l.

(** Template-literal rendering of a non-negative integer. *)
Definition showNat (n : nat) : string :=
  NilEmpty.string_of_uint (Nat.to_uint n).

(** [Array.prototype.map] with a callback that takes the element and
    its index; [mapFrom i] is the part of the loop from index [i] on. *)
Fixpoint mapFrom {A B} (i : nat) (f : A -> nat -> B) (l : list A) : list B :=
  match l with
  | [] => []
  | a :: l' => f a i :: mapFrom (S i) f l'
  end.

Definition mapIndexed {A B} (f : A -> nat -> B) (l : list A) : list B :=
  mapFrom 0 f l.

End JS.

(* ================================================================== *)
(** ** Sensor samples ([SensorData])                                   *)
(* ================================================================== *)

Record Vec3 := { x : Q; y : Q; z : Q }.

Record SensorData := {
  acceleration : Vec3;
  gyroscope : Vec3;
  timestamp : Z
}.

(** How a promise ended. *)
Inductive Outcome :=
| Resolved
| Rejected (message : string).

(* ================================================================== *)
(** ** DataCollectionForm.tsx: the component                           *)
(* ================================================================== *)

Module DataCollectionForm.

Inductive Variant := Default | Destructive.

Record Toast := {
  title : string;
  description : string;
  variant : Variant
}.

Definition DEFAULT_ACTIVITIES : list string :=
  ["standing"; "sitting"; "walking"].

(** The [useState] cells, the [chartDataRef] ref and the toasts shown
    so far (oldest first). *)
Record Form := {
  selectedActivity : string;
  newActivity : string;
  activities : list string;
  isCollecting : bool;
  sensorData : list SensorData;
  showNewActivityInput : bool;
  chartDataRef : list SensorData;
  toasts : list Toast
}.

(** The component as first rendered. *)
Definition mount : Form := {|
  selectedActivity := "";
  newActivity := "";
  activities := DEFAULT_ACTIVITIES;
  isCollecting := false;
  sensorData := [];
  showNewActivityInput := false;
  chartDataRef := [];
  toasts := []
|}.

Definition toast (t : Toast) (f : Form) : Form := {|
  selectedActivity := selectedActivity f;
  newActivity := newActivity f;
  activities := activities f;
  isCollecting := isCollecting f;
  sensorData := sensorData f;
  showNewActivityInput := showNewActivityInput f;
  chartDataRef := chartDataRef f;
  toasts := toasts f ++ [t]
|}.

Definition setSelectedActivity (v : string) (f : Form) : Form := {|
  selectedActivity := v;
  newActivity := newActivity f;
  activities := activities f;
  isCollecting := isCollecting f;
  sensorData := sensorData f;
  showNewActivityInput := showNewActivityInput f;
  chartDataRef := chartDataRef f;
  toasts := toasts f
|}.

Definition setNewActivity (v : string) (f : Form) : Form := {|
  selectedActivity := selectedActivity f;
  newActivity := v;
  activities := activities f;
  isCollecting := isCollecting f;
  sensorData := sensorData f;
  showNewActivityInput := showNewActivityInput f;
  chartDataRef := chartDataRef f;
  toasts := toasts f
|}.

Definition setActivities (v : list string) (f : Form) : Form := {|
  selectedActivity := selectedActivity f;
  newActivity := newActivity f;
  activities := v;
  isCollecting := isCollecting f;
  sensorData := sensorData f;
  showNewActivityInput := showNewActivityInput f;
  chartDataRef := chartDataRef f;
  toasts := toasts f
|}.

Definition setIsCollecting (v : bool) (f : Form) : Form := {|
  selectedActivity := selectedActivity f;
  newActivity := newActivity f;
  activities := activities f;
  isCollecting := v;
  sensorData := sensorData f;
  showNewActivityInput := showNewActivityInput f;
  chartDataRef := chartDataRef f;
  toasts := toasts f
|}.

Definition setSensorData (v : list SensorData) (f : Form) : Form := {|
  selectedActivity := selectedActivity f;
  newActivity := newActivity f;
  activities := activities f;
  isCollecting := isCollecting f;
  sensorData := v;
  showNewActivityInput := showNewActivityInput f;
  chartDataRef := chartDataRef f;
  toasts := toasts f
|}.

Definition setShowNewActivityInput (v : bool) (f : Form) : Form := {|
  selectedActivity := selectedActivity f;
  newActivity := newActivity f;
  activities := activities f;
  isCollecting := isCollecting f;
  sensorData := sensorData f;
  showNewActivityInput := v;
  chartDataRef := chartDataRef f;
  toasts := toasts f
|}.

(** [chartDataRef.current = v] *)
Definition setChartDataRef (v : list SensorData) (f : Form) : Form := {|
  selectedActivity := selectedActivity f;
  newActivity := newActivity f;
  activities := activities f;
  isCollecting := isCollecting f;
  sensorData := sensorData f;
  showNewActivityInput := showNewActivityInput f;
  chartDataRef := v;
  toasts := toasts f
|}.

(** [handleSensorData], the observer handed to the service. *)
Definition handleSensorData (data : SensorData) (f : Form) : Form :=
  let updatedData := chartDataRef f ++ [data] in
  let f1 :=
    if 20 <? List.length updatedData
    then setChartDataRef
           (JS.slice (Z.of_nat (List.length updatedData) - 20) updatedData) f
    else setChartDataRef updatedData f in
  setSensorData (chartDataRef f1) f1.

(** [startCollection] up to its [await].  [Some a] means that
    [mqttService.connect(handleSensorData)] has been called and the
    function is suspended, [a] being the [selectedActivity] its
    closure holds; [None] means that it returned. *)
Definition startCollection_call (f : Form) : Form * option string :=
  if negb (JS.truthy (selectedActivity f))
  then (toast {| title := "Error";
                 description := "Please select an activity first";
                 variant := Destructive |} f,
        None)
  else (f, Some (selectedActivity f)).

(** [startCollection] from its [await] on, once the promise of
    [connect] has ended with [o]. *)
Definition startCollection_resume (a : string) (o : Outcome) (f : Form) : Form :=
  match o with
  | Resolved =>
      let f1 := setIsCollecting true f in
      let f2 := setChartDataRef [] f1 in
      let f3 := setSensorData [] f2 in
      toast {| title := "Data Collection Started";
               description := "Recording data for " ++ a;
               variant := Default |} f3
  | Rejected _ =>
      toast {| title := "Connection Error";
               description := "Failed to connect to MQTT broker";
               variant := Destructive |} f
  end.

(** [stopCollection], after [await mqttService.disconnect()]; the
    promise of [disconnect] is resolved when it is returned, so nothing
    runs between the call and the rest of the function. *)
Definition stopCollection (f : Form) : Form :=
  let f1 := setIsCollecting false f in
  toast {| title := "Data Collection Stopped";
           description :=
             "Collected " ++ JS.showNat (List.length (chartDataRef f))
             ++ " data points for " ++ selectedActivity f;
           variant := Default |} f1.

Definition saveData (f : Form) : Form :=
  if (List.length (chartDataRef f) =? 0)%nat
  then toast {| title := "No Data";
                description := "No data has been collected to save";
                variant := Destructive |} f
  else toast {| title := "Data Saved";
                description :=
                  JS.showNat (List.length (chartDataRef f))
                  ++ " data points saved for " ++ selectedActivity f;
                variant := Default |} f.

Definition addNewActivity (f : Form) : Form :=
  if negb (JS.truthy (JS.trim (newActivity f)))
  then toast {| title := "Invalid Activity";
                description := "Please enter a valid activity name";
                variant := Destructive |} f
  else if JS.includes (activities f) (JS.toLowerCase (JS.trim (newActivity f)))
  then toast {| title := "Activity Exists";
                description := "This activity already exists";
                variant := Destructive |} f
  else
    let f1 := setActivities
                (activities f ++ [JS.toLowerCase (JS.trim (newActivity f))]) f in
    let f2 := setSelectedActivity
                (JS.toLowerCase (JS.trim (newActivity f))) f1 in
    let f3 := setNewActivity "" f2 in
    let f4 := setShowNewActivityInput false f3 in
    toast {| title := "Activity Added";
             description :=
               "'" ++ newActivity f
               ++ "' has been added to available activities";
             variant := Default |} f4.

(** Every call the rendered page can make into the component: the
    handlers its widgets are bound to, the observer, and the rest of a
    suspended [startCollection].  The [disabled] attributes of the
    widgets rule some of these calls out at times; what is proved of
    all of them holds with those calls left out. *)
Inductive Action :=
| TypeNewActivity (v : string)        (* Input onChange *)
| ClickAdd                            (* Button "Add" *)
| ClickPlus                           (* Button PlusCircle *)
| ClickClose                          (* Button X *)
| PickActivity (v : string)           (* Select onValueChange *)
| ClickBadge (v : string)             (* Badge onClick *)
| ClickStart                          (* Button "Start Recording" *)
| ConnectEnded (a : string) (o : Outcome)
| ClickStop                           (* Button "Stop Recording" *)
| ClickSave                           (* Button "Save Data" *)
| Sample (data : SensorData).

Definition step (f : Form) (a : Action) : Form :=
  match a with
  | TypeNewActivity v => setNewActivity v f
  | ClickAdd => addNewActivity f
  | ClickPlus => setShowNewActivityInput true f
  | ClickClose => setShowNewActivityInput false f
  | PickActivity v => setSelectedActivity v f
  | ClickBadge v => if negb (isCollecting f) then setSelectedActivity v f else f
  | ClickStart => fst (startCollection_call f)
  | ConnectEnded a o => startCollection_resume a o f
  | ClickStop => stopCollection f
  | ClickSave => saveData f
  | Sample data => handleSensorData data f
  end.

Definition run (acts : list Action) (f : Form) : Form :=
  fold_left step acts f.

(** The operation the specification calls [addActivity(name)]: the
    name is typed into the input, then "Add" is pressed. *)
Definition addActivity (name : string) (f : Form) : Form :=
  addNewActivity (setNewActivity name f).

(** A recording session as the form sees it: [connect] resolves, the
    samples arrive, recording is stopped. *)
Definition session (a : string) (samples : list SensorData) (f : Form) : Form :=
  stopCollection
    (fold_left (fun g d => handleSensorData d g) samples
       (startCollection_resume a Resolved f)).

(** The toast shown last. *)
Definition lastToast (f : Form) : option Toast :=
  last (map Some (toasts f)) None.

(** *** What is rendered *)

(** A row of the data handed to the two charts. *)
Record ChartRow := {
  name : nat;
  accX : Q; accY : Q; accZ : Q;
  gyroX : Q; gyroY : Q; gyroZ : Q
}.

Definition formatChartData (data : list SensorData) : list ChartRow :=
  JS.mapIndexed
    (fun item index =>
       {| name := index;
          accX := x (acceleration item);
          accY := y (acceleration item);
          accZ := z (acceleration item);
          gyroX := x (gyroscope item);
          gyroY := y (gyroscope item);
          gyroZ := z (gyroscope item) |})
    data.

(** What both [LineChart]s get as [data]; they are rendered when
    [sensorData.length > 0]. *)
Definition chartData (f : Form) : option (list ChartRow) :=
  if 0 <? List.length (sensorData f)
  then Some (formatChartData (sensorData f))
  else None.

(** Whether the widget that makes the call [a] is on the page and not
    disabled.  The input, "Add" and the X button are rendered while
    [showNewActivityInput]; the select and the plus button otherwise,
    both [disabled={isCollecting}]; the select and the badges offer
    the known activities; the one record button calls [stopCollection]
    when [isCollecting] and [startCollection] otherwise, and is
    [disabled={!selectedActivity && !isCollecting}]; "Save Data" is
    [disabled={isCollecting || chartDataRef.current.length === 0}].
    The observer and the rest of [startCollection] are not widgets. *)
Definition offered (f : Form) (a : Action) : bool :=
  match a with
  | TypeNewActivity _ | ClickAdd | ClickClose => showNewActivityInput f
  | ClickPlus => negb (showNewActivityInput f) && negb (isCollecting f)
  | PickActivity v =>
      negb (showNewActivityInput f) && negb (isCollecting f)
      && JS.includes (activities f) v
  | ClickBadge v => JS.includes (activities f) v
  | ClickStart =>
      negb (isCollecting f)
      && negb (negb (JS.truthy (selectedActivity f)) && negb (isCollecting f))
  | ClickStop =>
      isCollecting f
      && negb (negb (JS.truthy (selectedActivity f)) && negb (isCollecting f))
  | ClickSave =>
      negb (isCollecting f || (List.length (chartDataRef f) =? 0))
  | ConnectEnded _ _ | Sample _ => true
  end.

(** A sequence of calls, each made through a widget that offers it (or
    by the service), starting from [f]. *)
Fixpoint offeredAll (acts : list Action) (f : Form) : bool :=
  match acts with
  | [] => true
  | a :: acts' => offered f a && offeredAll acts' (step f a)
  end.

End DataCollectionForm.

(* ================================================================== *)
(** ** The host the service runs on                                    *)
(* ================================================================== *)

(** What the embedding takes from the JavaScript engine: the rounding
    of binary64 arithmetic (to nearest, hence monotone, and exact on
    the integers up to 2^53), and the values [Math.random()] returns
    one call after the other, which ECMAScript places in [0, 1). *)
Class Engine := {
  round : Q -> Q;
  round_le : forall a b : Q, (a <= b)%Q -> (round a <= round b)%Q;
  round_int : forall n : Z,
      (Z.abs n <= 2 ^ 53)%Z -> (round (inject_Z n) == inject_Z n)%Q;
  Math_random : nat -> Q;
  Math_random_range : forall n : nat, (0 <= Math_random n < 1)%Q
}.

(* ================================================================== *)
(** ** DataCollectionForm.tsx, second part: class MQTTService          *)
(* ================================================================== *)

Module MQTTService.

Record MQTTConfig := {
  brokerUrl : string;
  username : option string;
  password : option string;
  clientId : string;
  topic : string
}.

(** The observer passed to [connect], known by its identity. *)
Definition Callback := nat.

(** The object literal [connect] stores in [this.client]. *)
Inductive MqttClient := MockClient.

(** The private fields of the class. *)
Record Service := {
  client : option MqttClient;
  onMessageCallback : option Callback;
  config : option MQTTConfig;
  isConnected : bool
}.

(** What a timer runs when it fires: the function the mock's [on]
    hands to [setTimeout] (it closes over the promise of the [connect]
    call that registered it), or the function
    [startMockDataGeneration] hands to [setInterval]. *)
Inductive Task :=
| ConnectTimeout (p : nat)
| MockInterval.

Record Timer := { due : Z; task : Task }.

(** The service together with the event loop around it.  A promise is
    known by its index in [promises]; [None] there means pending.
    [delivered] lists the calls made to observers, oldest first. *)
Record World := {
  this : Service;
  now : Z;
  timers : list Timer;
  promises : list (option Outcome);
  delivered : list (Callback * SensorData);
  console : list string;
  draws : nat
}.

(** [new MQTTService()] in a fresh page whose clock reads [t0]. *)
Definition boot (t0 : Z) : World := {|
  this := {| client := None; onMessageCallback := None;
             config := None; isConnected := false |};
  now := t0;
  timers := [];
  promises := [];
  delivered := [];
  console := [];
  draws := 0
|}.

(** *** Sequencing *)

Definition M (A : Type) : Type := World -> A * World.

Definition ret {A} (a : A) : M A := fun w => (a, w).

Definition bind {A B} (m : M A) (k : A -> M B) : M B :=
  fun w => k (fst (m w)) (snd (m w)).

Declare Scope js_scope.
Delimit Scope js_scope with js.
Notation "v <- m ;; k" := (bind m (fun v => k))
  (at level 61, m at next level, right associativity) : js_scope.
Notation "m ;; k" := (bind m (fun _ => k))
  (at level 61, right associativity) : js_scope.
Local Open Scope js_scope.

Definition exec {A} (m : M A) (w : World) : World := snd (m w).

Definition getThis : M Service := fun w => (this w, w).

Definition setThis (s : Service) : M unit := fun w =>
  (tt, {| this := s; now := now w; timers := timers w;
          promises := promises w; delivered := delivered w;
          console := console w; draws := draws w |}).

Definition set_client (v : option MqttClient) : M unit :=
  s <- getThis ;;
  setThis {| client := v; onMessageCallback := onMessageCallback s;
             config := config s; isConnected := isConnected s |}.

Definition set_onMessageCallback (v : option Callback) : M unit :=
  s <- getThis ;;
  setThis {| client := client s; onMessageCallback := v;
             config := config s; isConnected := isConnected s |}.

Definition set_config (v : option MQTTConfig) : M unit :=
  s <- getThis ;;
  setThis {| client := client s; onMessageCallback := onMessageCallback s;
             config := v; isConnected := isConnected s |}.

Definition set_isConnected (v : bool) : M unit :=
  s <- getThis ;;
  setThis {| client := client s; onMessageCallback := onMessageCallback s;
             config := config s; isConnected := v |}.

(** [console.log] and [console.error] *)
Definition log (line : string) : M unit := fun w =>
  (tt, {| this := this w; now := now w; timers := timers w;
          promises := promises w; delivered := delivered w;
          console := console w ++ [line]; draws := draws w |}).

(** [Date.now()] *)
Definition Date_now : M Z := fun w => (now w, w).

(** [setTimeout(task, delay)] and [setInterval(task, delay)]: the
    timer joins the queue behind those armed before it. *)
Definition arm (delay : Z) (k : Task) : M unit := fun w =>
  (tt, {| this := this w; now := now w;
          timers := timers w ++ [{| due := (now w + delay)%Z; task := k |}];
          promises := promises w; delivered := delivered w;
          console := console w; draws := draws w |}).

(** [new Promise(...)]: a pending promise. *)
Definition newPromise : M nat := fun w =>
  (List.length (promises w),
   {| this := this w; now := now w; timers := timers w;
      promises := promises w ++ [None]; delivered := delivered w;
      console := console w; draws := draws w |}).

Fixpoint settleAt (p : nat) (o : Outcome) (l : list (option Outcome))
  {struct l} : list (option Outcome) :=
  match l, p with
  | [], _ => []
  | None :: l', 0 => Some o :: l'
  | Some o' :: l', 0 => Some o' :: l'
  | e :: l', S p' => e :: settleAt p' o l'
  end.

(** [resolve()] and [reject(err)] of promise [p]; a promise that has
    ended keeps its outcome. *)
Definition settle (p : nat) (o : Outcome) : M unit := fun w =>
  (tt, {| this := this w; now := now w; timers := timers w;
          promises := settleAt p o (promises w); delivered := delivered w;
          console := console w; draws := draws w |}).

(** The state of promise [p]: [Some None] while pending,
    [Some (Some o)] once ended with [o]. *)
Definition promise (p : nat) (w : World) : option (option Outcome) :=
  nth_error (promises w) p.

(** A call of the observer [cb]. *)
Definition deliver (cb : Callback) (data : SensorData) : M unit := fun w =>
  (tt, {| this := this w; now := now w; timers := timers w;
          promises := promises w;
          delivered := delivered w ++ [(cb, data)];
          console := console w; draws := draws w |}).

(** *** The methods *)

Definition configure (cfg : MQTTConfig) : M unit :=
  set_config (Some cfg).

(** [on] of the mock client: only ['connect'] is listened to. *)
Definition client_on (event : string) (k : Task) : M unit :=
  if (event =? "connect")%string then arm 500 k else ret tt.

Definition connect (onMessage : Callback) : M nat :=
  s <- getThis ;;
  match config s with
  | None =>
      (* Promise.reject(new Error('MQTT not configured')) *)
      p <- newPromise ;;
      settle p (Rejected "MQTT not configured") ;;
      ret p
  | Some cfg =>
      p <- newPromise ;;
      log ("Connecting to MQTT broker: " ++ brokerUrl cfg) ;;
      set_client (Some MockClient) ;;
      set_onMessageCallback (Some onMessage) ;;
      client_on "connect" (ConnectTimeout p) ;;
      (* the mock ignores the 'error' listener *)
      ret p
  end.

Definition startMockDataGeneration : M unit :=
  s <- getThis ;;
  match onMessageCallback s with
  | None => ret tt
  | Some _ => arm 1000 MockInterval
  end.

(** The listener [connect] registers for ['connect']. *)
Definition onConnect (p : nat) : M unit :=
  log "Connected to MQTT broker" ;;
  s <- getThis ;;
  match config s, client s with
  | Some cfg, Some MockClient =>
      (* subscribe of the mock, which calls back with null *)
      log ("Subscribed to topic: " ++ topic cfg) ;;
      log ("Subscribed to topic: " ++ topic cfg) ;;
      startMockDataGeneration ;;
      settle p Resolved
  | _, _ => ret tt
  end.

(** The function the mock's [on] passes to [setTimeout]. *)
Definition connectTimeout (p : nat) : M unit :=
  onConnect p ;;
  set_isConnected true.

Definition disconnect : M nat :=
  p <- newPromise ;;
  s <- getThis ;;
  match client s with
  | Some MockClient =>
      if isConnected s then
        (* end of the mock *)
        set_isConnected false ;;
        log "MQTT connection ended" ;;
        (* the callback given to end *)
        set_isConnected false ;;
        set_onMessageCallback None ;;
        log "Disconnected from MQTT broker" ;;
        settle p Resolved ;;
        ret p
      else
        settle p Resolved ;; ret p
  | None =>
      settle p Resolved ;; ret p
  end.


(** What the rest of the page does with the service. *)
Inductive Call :=
| Configure (cfg : MQTTConfig)
| Connect (onMessage : Callback)
| Disconnect
| Wait (ms : nat).

Section OnEngine.

Context {E : Engine}.

(** [Math.random()] *)
Definition random : M Q := fun w =>
  (Math_random (draws w),
   {| this := this w; now := now w; timers := timers w;
      promises := promises w; delivered := delivered w;
      console := console w; draws := S (draws w) |}).

(** [Math.random() * 20 - 10] on a draw [r] *)
Definition scale (r : Q) : Q := round (round (r * 20) - 10).

Definition randomValue : M Q :=
  r <- random ;; ret (scale r).

(** The function [startMockDataGeneration] passes to [setInterval].
    [false] means that it called [clearInterval] on itself. *)
Definition mockInterval : M bool :=
  s <- getThis ;;
  match isConnected s, onMessageCallback s with
  | true, Some cb =>
      ax <- randomValue ;;
      ay <- randomValue ;;
      az <- randomValue ;;
      gx <- randomValue ;;
      gy <- randomValue ;;
      gz <- randomValue ;;
      t <- Date_now ;;
      deliver cb {| acceleration := {| x := ax; y := ay; z := az |};
                    gyroscope := {| x := gx; y := gy; z := gz |};
                    timestamp := t |} ;;
      ret true
  | _, _ => ret false
  end.

(** *** The event loop *)

Definition fire (t : Timer) : M unit :=
  match task t with
  | ConnectTimeout p => connectTimeout p
  | MockInterval =>
      again <- mockInterval ;;
      if again then arm 1000 MockInterval else ret tt
  end.

(** Run the given timers, in order. *)
Definition fireAll (l : list Timer) (v : World) : World :=
  fold_left (fun u k => exec (fire k) u) l v.

(** The clock moves by one millisecond and the timers that are due
    leave the queue. *)
Definition advance (w : World) : World :=
  {| this := this w; now := now w + 1;
     timers := filter (fun k => negb (due k <=? now w + 1)%Z) (timers w);
     promises := promises w; delivered := delivered w;
     console := console w; draws := draws w |}.

(** One millisecond passes: the clock moves, and the timers that
    are due run in the order in which they were armed. *)
Definition tick (w : World) : World :=
  fireAll (filter (fun k => (due k <=? now w + 1)%Z) (timers w)) (advance w).

Fixpoint elapse (ms : nat) (w : World) : World :=
  match ms with
  | 0 => w
  | S n => elapse n (tick w)
  end.

Definition perform (w : World) (c : Call) : World :=
  match c with
  | Configure cfg => exec (configure cfg) w
  | Connect cb => exec (connect cb) w
  | Disconnect => exec disconnect w
  | Wait ms => elapse ms w
  end.

Definition run (calls : list Call) (w : World) : World :=
  fold_left perform calls w.

End OnEngine.

End MQTTService.

(* ================================================================== *)
(** ** services/mqttService.ts: the module-level helpers               *)
(* ================================================================== *)

Module mqttService.

Definition MQTT_SERVER : string := "wss://broker.emqx.io:8084/mqtt".

(** The requests made to the [mqtt] package, which lies outside the
    repository; a client it returned is known by its number. *)
Inductive Request :=
| MqttConnect (url : string) (c : nat)
| ClientSubscribe (c : nat) (topic : string)
| ClientOnMessage (c : nat) (topic : string)
| ClientUnsubscribe (c : nat) (topic : string)
| ClientPublish (c : nat) (topic message : string)
| ClientEnd (c : nat).

(** The module variable [client], the requests made so far and the
    console. *)
Record State := {
  client : option nat;
  requests : list Request;
  console : list string
}.

Definition load : State :=
  {| client := None; requests := []; console := [] |}.

Definition request (r : Request) (s : State) : State :=
  {| client := client s; requests := requests s ++ [r];
     console := console s |}.

Definition log (line : string) (s : State) : State :=
  {| client := client s; requests := requests s;
     console := console s ++ [line] |}.

Definition set_client (v : option nat) (s : State) : State :=
  {| client := v; requests := requests s; console := console s |}.

(** [connectMqtt] up to the point where it waits for the broker. *)
Definition connectMqtt (s : State) : State :=
  let c := List.length (requests s) in
  set_client (Some c) (request (MqttConnect MQTT_SERVER c) s).

Definition subscribeTopic (topic : string) (s : State) : State :=
  match client s with
  | None => log "MQTT client not connected" s
  | Some c => request (ClientOnMessage c topic)
                (request (ClientSubscribe c topic) s)
  end.

Definition unsubscribeTopic (topic : string) (s : State) : State :=
  match client s with
  | None => log "MQTT client not connected" s
  | Some c => request (ClientUnsubscribe c topic) s
  end.

Definition publishMessage (topic message : string) (s : State) : State :=
  match client s with
  | None => log "MQTT client not connected" s
  | Some c => request (ClientPublish c topic message) s
  end.

Definition disconnectMqtt (s : State) : State :=
  match client s with
  | None => log "MQTT client already disconnected" s
  | Some c =>
      log "Disconnected from MQTT broker"
        (set_client None (request (ClientEnd c) s))
  end.

(** What the rest of the application does with the helpers. *)
Inductive Call :=
| ConnectMqtt
| SubscribeTopic (topic : string)
| UnsubscribeTopic (topic : string)
| PublishMessage (topic message : string)
| DisconnectMqtt.

Definition perform (s : State) (c : Call) : State :=
  match c with
  | ConnectMqtt => connectMqtt s
  | SubscribeTopic topic => subscribeTopic topic s
  | UnsubscribeTopic topic => unsubscribeTopic topic s
  | PublishMessage topic message => publishMessage topic message s
  | DisconnectMqtt => disconnectMqtt s
  end.

Definition run (calls : list Call) (s : State) : State :=
  fold_left perform calls s.

End mqttService.

(* ================================================================== *)
(** ** The page: the component mounted on the service                  *)
(* ================================================================== *)

Module Page.

Import DataCollectionForm MQTTService.

(** The observer the component registers: its [handleSensorData]. *)
Definition observer : Callback := 0.

(** The component, the world its service lives in, and the calls of
    [startCollection] suspended at their [await] (the promise awaited
    and the [selectedActivity] the closure holds).  Once unmounted the
    component is no longer looked at. *)
Record Page := {
  form : Form;
  world : World;
  suspended : list (nat * string);
  mounted : bool
}.

(** First render at time [t0], and the effect that configures the
    service. *)
Definition load (t0 : Z) : Page := {|
  form := mount;
  world :=
    exec (configure {| brokerUrl := "mqtt://broker.example.com";
                       username := None;
                       password := None;
                       clientId := "motionsense_" ++ JS.showNat (Z.to_nat t0);
                       topic := "esp32/sensor_data" |})
         (boot t0);
  suspended := [];
  mounted := true
|}.

(** Resume the suspended calls whose promise has ended. *)
Fixpoint resume (w : World) (l : list (nat * string)) (f : Form)
  : Form * list (nat * string) :=
  match l with
  | [] => (f, [])
  | (p, a) :: l' =>
      match promise p w with
      | Some (Some o) => resume w l' (startCollection_resume a o f)
      | _ => let r := resume w l' f in (fst r, (p, a) :: snd r)
      end
  end.

(** The world has moved to [w']: the component handles the samples
    delivered meanwhile, then the suspended calls that can go on do. *)
Definition absorb (w' : World) (pg : Page) : Page :=
  if mounted pg then
    let fresh := skipn (List.length (delivered (world pg))) (delivered w') in
    let f := fold_left (fun g cd => handleSensorData (snd cd) g) fresh (form pg) in
    let r := resume w' (suspended pg) f in
    {| form := fst r; world := w'; suspended := snd r; mounted := true |}
  else
    {| form := form pg; world := w'; suspended := suspended pg;
       mounted := false |}.

Definition withForm (f : Form) (pg : Page) : Page :=
  {| form := f; world := world pg; suspended := suspended pg;
     mounted := mounted pg |}.

(** A call into the component.  [startCollection] and [stopCollection]
    go through the service. *)
Definition call (a : Action) (pg : Page) : Page :=
  match a with
  | ClickStart =>
      match startCollection_call (form pg) with
      | (f, None) => withForm f pg
      | (f, Some sel) =>
          let r := connect observer (world pg) in
          absorb (snd r)
            {| form := f; world := world pg;
               suspended := suspended pg ++ [(fst r, sel)];
               mounted := mounted pg |}
      end
  | ClickStop =>
      withForm (stopCollection (form pg))
        (absorb (exec disconnect (world pg)) pg)
  | ConnectEnded _ _ | Sample _ =>
      (* these reach the component from the service, see [absorb] *)
      pg
  | _ => withForm (step (form pg) a) pg
  end.

(** The component is removed: the cleanup of the effect runs. *)
Definition unmount (pg : Page) : Page :=
  {| form := form pg; world := exec disconnect (world pg);
     suspended := suspended pg; mounted := false |}.

(** What happens to a page: the user acts on a widget, time passes,
    the component is removed. *)
Inductive Event :=
| Do (a : Action)
| Pass (ms : nat)
| Unmount.

Section OnEngine.

Context {E : Engine}.

(** One millisecond on the page: after each timer the component
    reacts before the next timer runs. *)
Definition tick (pg : Page) : Page :=
  fold_left (fun g k => absorb (exec (fire k) (world g)) g)
    (filter (fun k => (due k <=? now (world pg) + 1)%Z) (timers (world pg)))
    {| form := form pg; world := advance (world pg);
       suspended := suspended pg; mounted := mounted pg |}.

Fixpoint elapse (ms : nat) (pg : Page) : Page :=
  match ms with
  | 0 => pg
  | S n => elapse n (tick pg)
  end.

Definition react (pg : Page) (e : Event) : Page :=
  match e with
  | Do a => call a pg
  | Pass ms => elapse ms pg
  | Unmount => unmount pg
  end.

Definition play (events : list Event) (pg : Page) : Page :=
  fold_left react events pg.

End OnEngine.

End Page.

(* ================================================================== *)
(** * Vocabulary of the properties                                     *)
(* ================================================================== *)

Section OfValues.

Import JS.

(** A string that does not begin with white space. *)
Definition headed (s : string) : Prop :=
  match s with
  | EmptyString => True
  | String c _ => isWhiteSpace c = false
  end.

(** The form in which the component stores an activity name. *)
Definition normalized (s : string) : Prop :=
  trim s = s /\ toLowerCase s = s.

(** The last [n] elements of a list. *)
Definition lastn {A} (n : nat) (l : list A) : list A :=
  skipn (List.length l - n) l.

End OfValues.

Section OfTheForm.

Import JS DataCollectionForm.

(** A sample whose readings are zero, taken at time [t]. *)
Definition sampleAt (t : nat) : SensorData :=
  {| acceleration := {| x := 0; y := 0; z := 0 |};
     gyroscope := {| x := 0; y := 0; z := 0 |};
     timestamp := Z.of_nat t |}.

(** [n] samples, one per second. *)
Definition samplesFor (n : nat) : list SensorData :=
  map (fun i => sampleAt (1000 * i)) (seq 1 n).

Definition noDataToast : Toast :=
  {| title := "No Data";
     description := "No data has been collected to save";
     variant := Destructive |}.

Definition dataSavedToast (n : nat) (a : string) : Toast :=
  {| title := "Data Saved";
     description := showNat n ++ " data points saved for " ++ a;
     variant := Default |}.

Definition invalidActivityToast : Toast :=
  {| title := "Invalid Activity";
     description := "Please enter a valid activity name";
     variant := Destructive |}.

Definition activityExistsToast : Toast :=
  {| title := "Activity Exists";
     description := "This activity already exists";
     variant := Destructive |}.

Definition activityAddedToast (typed : string) : Toast :=
  {| title := "Activity Added";
     description := "'" ++ typed ++ "' has been added to available activities";
     variant := Default |}.

(** The toast of [startCollection] when no activity is selected. *)
Definition selectFirstToast : Toast :=
  {| title := "Error";
     description := "Please select an activity first";
     variant := Destructive |}.

(** The chart row made of sample [d] at position [i]. *)
Definition rowOf (i : nat) (d : SensorData) : ChartRow :=
  {| name := i;
     accX := x (acceleration d);
     accY := y (acceleration d);
     accZ := z (acceleration d);
     gyroX := x (gyroscope d);
     gyroY := y (gyroscope d);
     gyroZ := z (gyroscope d) |}.

End OfTheForm.

Section OfTheService.

Import MQTTService.

(** The configuration the form passes to [configure]; the clock read 0
    when the component mounted. *)
Definition formConfig : MQTTConfig := {|
  brokerUrl := "mqtt://broker.example.com";
  username := None;
  password := None;
  clientId := "motionsense_0";
  topic := "esp32/sensor_data"
|}.

(** Every reading of a sample lies in [-10, 10]. *)
Definition inRange (d : SensorData) : Prop :=
  (-10 <= x (acceleration d) <= 10)%Q
  /\ (-10 <= y (acceleration d) <= 10)%Q
  /\ (-10 <= z (acceleration d) <= 10)%Q
  /\ (-10 <= x (gyroscope d) <= 10)%Q
  /\ (-10 <= y (gyroscope d) <= 10)%Q
  /\ (-10 <= z (gyroscope d) <= 10)%Q.

Definition allInRange (w : World) : Prop :=
  Forall (fun cd => inRange (snd cd)) (delivered w).

(** A [connect] is in flight: its timer is armed and has not fired. *)
Definition connecting (p : nat) (w : World) : Prop :=
  exists d : Z, In {| due := d; task := ConnectTimeout p |} (timers w)
                /\ (now w < d)%Z.

(** On a service built by [new MQTTService()] and used through its
    methods, a service without a client is not connected and has no
    timer. *)
Definition clientless (w : World) : Prop :=
  client (this w) = None -> isConnected (this w) = false /\ timers w = [].

Context {E : Engine}.

(** The sample the mock generator builds from the draws that follow
    draw number [n], at time [t]. *)
Definition mockData (n : nat) (t : Z) : SensorData :=
  {| acceleration := {| x := scale (Math_random n);
                        y := scale (Math_random (1 + n));
                        z := scale (Math_random (2 + n)) |};
     gyroscope := {| x := scale (Math_random (3 + n));
                     y := scale (Math_random (4 + n));
                     z := scale (Math_random (5 + n)) |};
     timestamp := t |}.

(** The world [w] with its clock reading [t]. *)
Definition atTime (t : Z) (w : World) : World :=
  {| this := this w; now := t; timers := timers w;
     promises := promises w; delivered := delivered w;
     console := console w; draws := draws w |}.

(** The first [k] samples of the generator started by a [connect]
    made at time [t0]: one per second from [t0 + 1500] on, each built
    from the next six draws. *)
Definition samplesOf (cb : Callback) (t0 : Z) (k : nat)
  : list (Callback * SensorData) :=
  map (fun i => (cb, mockData (6 * i) (t0 + 1500 + 1000 * Z.of_nat i)))
      (seq 0 k).

(** A service configured with [cfg] and connected by one
    [connect(cb)] made at [t0] on a fresh page, at time [t], [k]
    samples having been generated. *)
Definition streaming (cfg : MQTTConfig) (cb : Callback) (t0 : Z) (k : nat)
    (t : Z) : World :=
  {| this := {| client := Some MockClient; onMessageCallback := Some cb;
                config := Some cfg; isConnected := true |};
     now := t;
     timers := [{| due := t0 + 500 + 1000 * (Z.of_nat k + 1);
                   task := MockInterval |}];
     promises := [Some Resolved];
     delivered := samplesOf cb t0 k;
     console := [("Connecting to MQTT broker: " ++ brokerUrl cfg)%string;
                 "Connected to MQTT broker";
                 ("Subscribed to topic: " ++ topic cfg)%string;
                 ("Subscribed to topic: " ++ topic cfg)%string];
     draws := 6 * k |}.

End OfTheService.

Section OfTheHelpers.

Import mqttService.

(** The client a request is made on; [mqtt.connect] is made on the
    library. *)
Definition onClient (r : Request) : option nat :=
  match r with
  | MqttConnect _ _ => None
  | ClientSubscribe c _ | ClientOnMessage c _ | ClientUnsubscribe c _
  | ClientPublish c _ _ | ClientEnd c => Some c
  end.

(** The client a request names. *)
Definition named (r : Request) : nat :=
  match r with
  | MqttConnect _ c | ClientSubscribe c _ | ClientOnMessage c _
  | ClientUnsubscribe c _ | ClientPublish c _ _ | ClientEnd c => c
  end.

(** Client [c] was returned by [mqtt.connect] in the course of [l]. *)
Definition created (c : nat) (l : list Request) : Prop :=
  In (MqttConnect MQTT_SERVER c) l.

(** [end] was called on client [c] in the course of [l]. *)
Definition ended (c : nat) (l : list Request) : Prop :=
  In (ClientEnd c) l.

(** What holds of the helpers' state however they are called:
    the requests name only clients made so far, the client in hand was
    made and has not been ended, and every request on a client was
    made on one that had been made and not ended. *)
Definition disciplined (s : State) : Prop :=
  Forall (fun r => named r < List.length (requests s)) (requests s)
  /\ (forall c, client s = Some c ->
        created c (requests s) /\ ~ ended c (requests s))
  /\ (forall pre r post c,
        requests s = pre ++ r :: post -> onClient r = Some c ->
        created c pre /\ ~ ended c pre).

(** The listeners for messages on [topic] registered on client [c]
    in the course of [l]: one for each [on('message', ...)]. *)
Definition listeners (c : nat) (topic : string) (l : list Request) : nat :=
  List.length
    (filter (fun r => match r with
                      | ClientOnMessage c' topic' =>
                          (c' =? c) && (topic' =? topic)%string
                      | _ => false
                      end) l).

(** The calls of [subscribeTopic(topic, ...)] among [calls]. *)
Definition subscriptions (topic : string) (calls : list Call) : nat :=
  List.length
    (filter (fun c => match c with
                      | SubscribeTopic topic' => (topic' =? topic)%string
                      | _ => false
                      end) calls).

End OfTheHelpers.

Section OfTheLog.

Import MQTTService.

(** The time stamps of the samples handed to observers, oldest first. *)
Definition stamps (w : World) : list Z :=
  map (fun cd => timestamp (snd cd)) (delivered w).

(** The samples handed out so far are in time order and none is
    stamped later than the clock reads. *)
Definition inOrder (w : World) : Prop :=
  StronglySorted Z.le (stamps w) /\ Forall (fun t => (t <= now w)%Z) (stamps w).


End OfTheLog.

Section OfThePage.

Import JS DataCollectionForm MQTTService.

(** The configuration the component hands to [configure] when it is
    mounted at time [t0]. *)
Definition configAt (t0 : Z) : MQTTConfig := {|
  brokerUrl := "mqtt://broker.example.com";
  username := None;
  password := None;
  clientId := "motionsense_" ++ showNat (Z.to_nat t0);
  topic := "esp32/sensor_data"
|}.

Definition startedToast (a : string) : Toast :=
  {| title := "Data Collection Started";
     description := "Recording data for " ++ a;
     variant := Default |}.

Definition stoppedToast (n : nat) (a : string) : Toast :=
  {| title := "Data Collection Stopped";
     description := "Collected " ++ showNat n ++ " data points for " ++ a;
     variant := Default |}.

(** The form of a fresh page on which activity [a] was chosen and
    recording has started, the window holding [l]. *)
Definition recording (a : string) (l : list SensorData) : Form := {|
  selectedActivity := a;
  newActivity := "";
  activities := DEFAULT_ACTIVITIES;
  isCollecting := true;
  sensorData := l;
  showNewActivityInput := false;
  chartDataRef := l;
  toasts := [startedToast a]
|}.





Context {E : Engine}.

(** The readings of the first [k] samples generated for a [connect]
    made at [t0]. *)
Definition readings (t0 : Z) (k : nat) : list SensorData :=
  map snd (samplesOf Page.observer t0 k).

End OfThePage.

(** ** An engine to run the service on *)

(** Rounding down to a multiple of 2^-32: inexact, monotone, and exact
    on the integers. *)
Definition truncate (q : Q) : Q := Qfloor (q * inject_Z (2 ^ 32)) # (2 ^ 32).

(** A stream of draws: 0.00, 0.37, 0.74, 0.11, ... *)
Definition draw (n : nat) : Q := Z.of_nat ((37 * n) mod 100) # 100.

Definition fixedPoint : Engine.
Proof.
  refine {| round := truncate; Math_random := draw |}.
  - intros a b H. unfold truncate, Qle. cbn [Qnum Qden].
    apply Z.mul_le_mono_nonneg_r; [lia|].
    apply Qfloor_resp_le.
    apply Qmult_le_compat_r; [exact H|].
    unfold Qle. simpl. lia.
  - intros n _. unfold truncate.
    rewrite <- inject_Z_mult, Qfloor_Z.
    unfold Qeq, inject_Z. simpl. lia.
  - intros n.
    assert (H : (37 * n) mod 100 < 100) by (apply Nat.mod_upper_bound; lia).
    unfold draw, Qle, Qlt. cbn [Qnum Qden].
    set (m := (37 * n) mod 100) in *. lia.
Defined.

(* ================================================================== *)
(** * Properties                                                       *)
(* ================================================================== *)

(** Conjunctions of closed equations, each settled by evaluation. *)
Ltac by_evaluation :=
  lazymatch goal with
  | |- _ /\ _ => split; [vm_compute; reflexivity | by_evaluation]
  | |- _ => vm_compute; reflexivity
  end.

(** ** Strings *)

Section Strings.

Import JS.

Lemma toLowerChar_idem (c : ascii) :
  toLowerChar (toLowerChar c) = toLowerChar c.
Proof.
  destruct c as [[] [] [] [] [] [] [] []]; reflexivity.
Qed.

Lemma isWhiteSpace_toLowerChar (c : ascii) :
  isWhiteSpace (toLowerChar c) = isWhiteSpace c.
Proof.
  destruct c as [[] [] [] [] [] [] [] []]; reflexivity.
Qed.

Lemma toLowerCase_idem (s : string) :
  toLowerCase (toLowerCase s) = toLowerCase s.
Proof.
  induction s as [|c s IH]; simpl; [reflexivity|].
  now rewrite toLowerChar_idem, IH.
Qed.

Lemma trimStart_toLowerCase (s : string) :
  trimStart (toLowerCase s) = toLowerCase (trimStart s).
Proof.
  induction s as [|c s IH]; simpl; [reflexivity|].
  rewrite isWhiteSpace_toLowerChar.
  destruct (isWhiteSpace c); [exact IH | reflexivity].
Qed.

Lemma trimEnd_toLowerCase (s : string) :
  trimEnd (toLowerCase s) = toLowerCase (trimEnd s).
Proof.
  induction s as [|c s IH]; simpl; [reflexivity|].
  rewrite IH, isWhiteSpace_toLowerChar.
  destruct (trimEnd s); simpl; [|reflexivity].
  destruct (isWhiteSpace c); reflexivity.
Qed.

Lemma trim_toLowerCase (s : string) :
  trim (toLowerCase s) = toLowerCase (trim s).
Proof.
  unfold trim. now rewrite trimStart_toLowerCase, trimEnd_toLowerCase.
Qed.

Lemma trimStart_headed (s : string) : headed (trimStart s).
Proof.
  induction s as [|c s IH]; simpl; [exact I|].
  destruct (isWhiteSpace c) eqn:W; [exact IH | exact W].
Qed.

Lemma trimStart_of_headed (s : string) : headed s -> trimStart s = s.
Proof.
  destruct s as [|c s]; simpl; [reflexivity|].
  now intros ->.
Qed.

Lemma trimEnd_headed (s : string) : headed s -> headed (trimEnd s).
Proof.
  destruct s as [|c s]; simpl; [easy|].
  intros W. rewrite W. now destruct (trimEnd s).
Qed.

Lemma trimEnd_idem (s : string) : trimEnd (trimEnd s) = trimEnd s.
Proof.
  induction s as [|c s IH]; simpl; [reflexivity|].
  destruct (trimEnd s) as [|d t] eqn:T.
  - destruct (isWhiteSpace c) eqn:W; simpl; [reflexivity|].
    now rewrite W.
  - simpl. simpl in IH. now rewrite IH.
Qed.

Lemma trim_idem (s : string) : trim (trim s) = trim s.
Proof.
  unfold trim.
  rewrite (trimStart_of_headed (trimEnd (trimStart s))).
  - apply trimEnd_idem.
  - apply trimEnd_headed, trimStart_headed.
Qed.

Lemma normalized_normalize (s : string) :
  normalized (toLowerCase (trim s)).
Proof.
  split.
  - now rewrite trim_toLowerCase, trim_idem.
  - apply toLowerCase_idem.
Qed.

Lemma includes_In (l : list string) (s : string) :
  includes l s = true <-> In s l.
Proof.
  unfold includes. rewrite existsb_exists. split.
  - intros [t [Ht E]]. apply String.eqb_eq in E. now subst.
  - intros H. exists s. split; [exact H | apply String.eqb_refl].
Qed.

Lemma truthy_false (s : string) : truthy s = false <-> s = "".
Proof. destruct s; simpl; split; congruence. Qed.

End Strings.

(** ** The sample window of the form *)

Section Window.

Import DataCollectionForm.

Lemma slice_from_nat {A} (k : nat) (l : list A) :
  k <= List.length l ->
  JS.slice (Z.of_nat (List.length l) - Z.of_nat (List.length l - k)) l
  = skipn k l.
Proof.
  intros H. unfold JS.slice.
  destruct (Z.ltb_spec (Z.of_nat (List.length l) - Z.of_nat (List.length l - k)) 0);
    [lia|].
  f_equal. lia.
Qed.

Lemma chartDataRef_handleSensorData (d : SensorData) (f : Form) :
  chartDataRef (handleSensorData d f) = lastn 20 (chartDataRef f ++ [d]).
Proof.
  unfold handleSensorData, lastn.
  set (u := chartDataRef f ++ [d]).
  destruct (Nat.ltb_spec 20 (List.length u)) as [H|H]; simpl.
  - unfold JS.slice.
    destruct (Z.ltb_spec (Z.of_nat (List.length u) - 20) 0); [lia|].
    f_equal. lia.
  - replace (List.length u - 20) with 0 by lia. reflexivity.
Qed.

Lemma sensorData_handleSensorData (d : SensorData) (f : Form) :
  sensorData (handleSensorData d f) = chartDataRef (handleSensorData d f).
Proof.
  unfold handleSensorData.
  destruct (20 <? List.length (chartDataRef f ++ [d])); reflexivity.
Qed.

Lemma handleSensorData_frame (d : SensorData) (f : Form) :
  selectedActivity (handleSensorData d f) = selectedActivity f
  /\ newActivity (handleSensorData d f) = newActivity f
  /\ activities (handleSensorData d f) = activities f
  /\ isCollecting (handleSensorData d f) = isCollecting f
  /\ showNewActivityInput (handleSensorData d f) = showNewActivityInput f
  /\ toasts (handleSensorData d f) = toasts f.
Proof.
  unfold handleSensorData.
  destruct (20 <? List.length (chartDataRef f ++ [d])); simpl; tauto.
Qed.

Lemma lastn_snoc {A} (n : nat) (l : list A) (d : A) :
  lastn n (lastn n l ++ [d]) = lastn n (l ++ [d]).
Proof.
  unfold lastn.
  rewrite !length_app, length_skipn. simpl.
  rewrite !skipn_app, skipn_skipn, length_skipn.
  destruct (Nat.le_gt_cases (List.length l) n) as [H|H].
  - replace (List.length l - n) with 0 by lia.
    rewrite Nat.sub_0_r, Nat.add_0_r. reflexivity.
  - f_equal; f_equal; lia.
Qed.

Lemma lastn_length {A} (n : nat) (l : list A) :
  List.length (lastn n l) = Nat.min (List.length l) n.
Proof. unfold lastn. rewrite length_skipn. lia. Qed.

(** The window after the samples [l] have been handled, starting from
    an empty window. *)
Lemma chartDataRef_fold (l : list SensorData) (f : Form) :
  chartDataRef f = [] ->
  chartDataRef (fold_left (fun g d => handleSensorData d g) l f)
  = lastn 20 l.
Proof.
  intros H0. induction l as [|d l IH] using rev_ind.
  - simpl. rewrite H0. reflexivity.
  - rewrite fold_left_app. cbn [fold_left].
    rewrite chartDataRef_handleSensorData, IH.
    apply lastn_snoc.
Qed.

(** Insertion below capacity appends; at capacity it drops exactly
    the oldest sample and appends. *)
Lemma handleSensorData_fifo (d : SensorData) (f : Form) :
  List.length (chartDataRef f) <= 20 ->
  chartDataRef (handleSensorData d f)
  = if List.length (chartDataRef f) <? 20
    then chartDataRef f ++ [d]
    else tl (chartDataRef f) ++ [d].
Proof.
  intros H. rewrite chartDataRef_handleSensorData. unfold lastn.
  rewrite length_app. simpl.
  destruct (Nat.ltb_spec (List.length (chartDataRef f)) 20) as [L|L].
  - replace (List.length (chartDataRef f) + 1 - 20) with 0 by lia.
    reflexivity.
  - replace (List.length (chartDataRef f) + 1 - 20) with 1 by lia.
    destruct (chartDataRef f) as [|e r]; [simpl in L; lia|reflexivity].
Qed.

(** C1.  After [connect] has resolved and [startCollection] has
    emptied the window, let any [N] samples reach [handleSensorData]
    one after the other.  The window ([chartDataRef.current], and the
    [sensorData] state that mirrors it) then holds [min N 20] samples,
    and they are the last [min N 20] samples delivered, in the order
    of arrival: what was delivered is what was evicted followed by
    the window.  As [samples] is arbitrary this holds after each
    insertion. *)
Theorem window_holds_latest_twenty
    (a : string) (f : Form) (samples : list SensorData) :
  let g := fold_left (fun g d => handleSensorData d g) samples
             (startCollection_resume a Resolved f) in
  let N := List.length samples in
  List.length (chartDataRef g) = Nat.min N 20
  /\ chartDataRef g = skipn (N - Nat.min N 20) samples
  /\ samples = firstn (N - Nat.min N 20) samples ++ chartDataRef g
  /\ sensorData g = chartDataRef g.
Proof.
  intros g N.
  assert (W : chartDataRef g = lastn 20 samples)
    by (apply chartDataRef_fold; reflexivity).
  assert (K : chartDataRef g = skipn (N - Nat.min N 20) samples).
  { rewrite W. unfold lastn, N. f_equal. lia. }
  repeat split.
  - rewrite W. apply lastn_length.
  - exact K.
  - rewrite K. symmetry. apply firstn_skipn.
  - subst g. destruct samples as [|d l] using rev_ind; [reflexivity|].
    rewrite fold_left_app. cbn [fold_left].
    apply sensorData_handleSensorData.
Qed.

End Window.

(** ** Saving and the activity list *)

Section Recording.

Import JS DataCollectionForm.

Lemma lastToast_toast (t : Toast) (f : Form) :
  lastToast (toast t f) = Some t.
Proof.
  unfold lastToast, toast. simpl. rewrite map_app. simpl.
  apply last_last.
Qed.

Lemma session_chartDataRef (a : string) (l : list SensorData) (f : Form) :
  chartDataRef (session a l f) = lastn 20 l.
Proof.
  unfold session, stopCollection. simpl.
  apply chartDataRef_fold. reflexivity.
Qed.

Lemma fold_handle_selectedActivity (l : list SensorData) (f : Form) :
  selectedActivity (fold_left (fun g d => handleSensorData d g) l f)
  = selectedActivity f.
Proof.
  revert f. induction l as [|d l IH]; intros f; simpl; [reflexivity|].
  rewrite IH. apply handleSensorData_frame.
Qed.

Lemma session_selectedActivity (a : string) (l : list SensorData) (f : Form) :
  selectedActivity (session a l f) = selectedActivity f.
Proof.
  unfold session, stopCollection. simpl.
  now rewrite fold_handle_selectedActivity.
Qed.

Lemma saveData_chartDataRef (f : Form) :
  chartDataRef (saveData f) = chartDataRef f.
Proof.
  unfold saveData. destruct (List.length (chartDataRef f) =? 0); reflexivity.
Qed.

(** C2, as stated, fails: after a session of 21 samples, [saveData]
    does not report the 21 samples that arrived. *)
Lemma save_after_21_samples_not_all :
  ~ (forall (f : Form) (samples : list SensorData),
        1 <= List.length samples ->
        let g := session (selectedActivity f) samples f in
        chartDataRef (saveData g) = samples
        /\ lastToast (saveData g)
           = Some (dataSavedToast (List.length samples) (selectedActivity f))).
Proof.
  intros H.
  specialize (H (setSelectedActivity "walking" mount) (samplesFor 21)).
  destruct H as [_ H]; [simpl; lia|].
  vm_compute in H. discriminate H.
Qed.

(** C2, amended.  The component keeps one log, the window of the 20
    latest samples.  After a session in which [K >= 1] samples
    arrived, [saveData] succeeds and reports that window: the last
    [min K 20] samples, counted in its toast next to the selected
    activity.  It is the whole sequence exactly when [K <= 20]. *)
Theorem save_reports_the_window (f : Form) (samples : list SensorData) :
  1 <= List.length samples ->
  let K := List.length samples in
  let g := session (selectedActivity f) samples f in
  chartDataRef (saveData g) = skipn (K - Nat.min K 20) samples
  /\ lastToast (saveData g)
     = Some (dataSavedToast (Nat.min K 20) (selectedActivity f))
  /\ (chartDataRef (saveData g) = samples <-> K <= 20).
Proof.
  intros HK K g.
  assert (W : chartDataRef g = skipn (K - Nat.min K 20) samples).
  { subst g. rewrite session_chartDataRef. unfold lastn, K. f_equal. lia. }
  assert (L : List.length (chartDataRef g) = Nat.min K 20).
  { rewrite W, length_skipn. fold K. lia. }
  repeat split.
  - now rewrite saveData_chartDataRef.
  - unfold saveData. rewrite L.
    destruct (Nat.eqb_spec (Nat.min K 20) 0) as [Z|_]; [lia|].
    rewrite lastToast_toast. unfold dataSavedToast.
    subst g. now rewrite session_selectedActivity.
  - rewrite saveData_chartDataRef. intros E.
    rewrite E in L. fold K in L. lia.
  - intros LE. rewrite saveData_chartDataRef, W.
    replace (K - Nat.min K 20) with 0 by lia. reflexivity.
Qed.

Lemma save_reports_the_window_witness :
  let f := setSelectedActivity "walking" mount in
  1 <= List.length (samplesFor 25)
  /\ lastToast (saveData (session "walking" (samplesFor 25) f))
     = Some (dataSavedToast 20 "walking").
Proof.
  intros f.
  assert (H : 1 <= List.length (samplesFor 25)) by (simpl; lia).
  split; [exact H|].
  exact (proj1 (proj2 (save_reports_the_window f (samplesFor 25) H))).
Defined.

(** C7.  With an empty log [saveData] fails: its only effect is the
    destructive "No Data" toast, and no "Data Saved" toast appears.
    In every case, failing or not, [saveData] leaves the log (and the
    rest of the recording state) as it was, so the call can be
    repeated. *)
Theorem save_without_data_fails (f : Form) :
  chartDataRef f = [] ->
  saveData f = toast noDataToast f
  /\ toasts (saveData f) = toasts f ++ [noDataToast]
  /\ (forall g : Form,
         chartDataRef (saveData g) = chartDataRef g
         /\ sensorData (saveData g) = sensorData g
         /\ selectedActivity (saveData g) = selectedActivity g
         /\ activities (saveData g) = activities g
         /\ isCollecting (saveData g) = isCollecting g).
Proof.
  intros H. unfold saveData at 1 2. rewrite H. simpl.
  repeat split; unfold saveData;
    destruct (List.length (chartDataRef g) =? 0); reflexivity.
Qed.

Lemma save_without_data_fails_witness :
  saveData mount = toast noDataToast mount
  /\ toasts (saveData mount) = [noDataToast].
Proof.
  pose proof (save_without_data_fails mount eq_refl) as H.
  exact (conj (proj1 H) (proj1 (proj2 H))).
Defined.

End Recording.

(** ** The known activities *)

Section Activities.

Import JS DataCollectionForm.

Lemma trim_empty_iff (n : string) :
  truthy (trim n) = false <-> toLowerCase (trim n) = "".
Proof.
  rewrite truthy_false. destruct (trim n); simpl; split; congruence.
Qed.

(** The three ways [addNewActivity] can go. *)
Lemma addNewActivity_blank (f : Form) :
  trim (newActivity f) = "" ->
  addNewActivity f = toast invalidActivityToast f.
Proof. intros H. unfold addNewActivity. now rewrite H. Qed.

Lemma addNewActivity_known (f : Form) :
  trim (newActivity f) <> "" ->
  In (toLowerCase (trim (newActivity f))) (activities f) ->
  addNewActivity f = toast activityExistsToast f.
Proof.
  intros H K. unfold addNewActivity.
  destruct (trim (newActivity f)) eqn:T; [congruence|]. simpl negb. cbv iota.
  apply includes_In in K. now rewrite K.
Qed.

Lemma addNewActivity_fresh (f : Form) :
  trim (newActivity f) <> "" ->
  ~ In (toLowerCase (trim (newActivity f))) (activities f) ->
  let k := toLowerCase (trim (newActivity f)) in
  addNewActivity f
  = toast (activityAddedToast (newActivity f))
      (setShowNewActivityInput false
         (setNewActivity ""
            (setSelectedActivity k
               (setActivities (activities f ++ [k]) f)))).
Proof.
  intros H K k. unfold addNewActivity.
  destruct (trim (newActivity f)) eqn:T; [congruence|]. simpl negb. cbv iota.
  destruct (includes (activities f) (toLowerCase (String a s))) eqn:I.
  - apply includes_In in I. contradiction.
  - reflexivity.
Qed.

Lemma step_activities (f : Form) (a : Action) :
  activities (step f a) = activities f
  \/ activities (step f a)
     = activities f ++ [toLowerCase (trim (newActivity f))].
Proof.
  destruct a; simpl; try (left; reflexivity).
  - unfold addNewActivity.
    destruct (negb (truthy (trim (newActivity f)))); [now left|].
    destruct (includes (activities f) (toLowerCase (trim (newActivity f))));
      [now left | now right].
  - destruct (negb (isCollecting f)); now left.
  - unfold startCollection_call.
    destruct (negb (truthy (selectedActivity f))); now left.
  - destruct o; now left.
  - unfold saveData.
    destruct (List.length (chartDataRef f) =? 0); now left.
  - left. apply handleSensorData_frame.
Qed.

Lemma step_keeps_normalized (f : Form) (a : Action) :
  Forall normalized (activities f) ->
  Forall normalized (activities (step f a)).
Proof.
  intros H. destruct (step_activities f a) as [E|E]; rewrite E; [exact H|].
  apply Forall_app. split; [exact H|].
  constructor; [apply normalized_normalize | constructor].
Qed.

Lemma defaults_normalized : Forall normalized DEFAULT_ACTIVITIES.
Proof. repeat constructor. Qed.

Lemma run_keeps_normalized (acts : list Action) (f : Form) :
  Forall normalized (activities f) ->
  Forall normalized (activities (run acts f)).
Proof.
  revert f. induction acts as [|a acts IH]; intros f H; simpl; [exact H|].
  apply IH, step_keeps_normalized, H.
Qed.

(** With normalized entries, membership of the normalized name is a
    case-insensitive match against a trimmed entry. *)
Lemma includes_case_insensitive (l : list string) (n : string) :
  Forall normalized l ->
  (In (toLowerCase (trim n)) l
   <-> exists e, In e l /\ toLowerCase (trim e) = toLowerCase (trim n)).
Proof.
  intros H. rewrite Forall_forall in H. split.
  - intros I. exists (toLowerCase (trim n)). split; [exact I|].
    destruct (normalized_normalize n) as [T L]. now rewrite T, L.
  - intros [e [I E]]. destruct (H e I) as [T L].
    rewrite T, L in E. now rewrite <- E.
Qed.

(** C8, as stated, fails: a blank name matches no known activity, yet
    it is not added. *)
Lemma blank_name_is_not_added :
  ~ (forall (n : string) (f : Form),
        ~ In (toLowerCase (trim n)) (activities f) ->
        In (toLowerCase (trim n)) (activities (addActivity n f))
        /\ selectedActivity (addActivity n f) = toLowerCase (trim n)).
Proof.
  intros H.
  destruct (H "   " (setSelectedActivity "walking" mount)) as [_ S].
  - vm_compute. intros [E|[E|[E|[]]]]; discriminate E.
  - vm_compute in S. discriminate S.
Qed.

(** C8, amended.  In any state the component can reach, let [n] be
    typed and "Add" pressed, and let [k] be [n] trimmed and in lower
    case.  A blank [n] is refused as invalid.  Otherwise the call
    fails with "Activity Exists" exactly when [k] is in the list,
    which is a case-insensitive match of the trimmed name; and when
    it is not, [k] (not [n] as typed) is appended to the list and
    becomes the selected activity.  A refused call changes neither
    the list nor the selection. *)
Theorem addActivity_outcome (acts : list Action) (n : string) :
  let f := run acts mount in
  let k := toLowerCase (trim n) in
  let g := addActivity n f in
  (In k (activities f)
   <-> exists e, In e (activities f)
                 /\ toLowerCase (trim e) = toLowerCase (trim n))
  /\ (trim n = "" ->
      lastToast g = Some invalidActivityToast
      /\ activities g = activities f
      /\ selectedActivity g = selectedActivity f)
  /\ (lastToast g = Some activityExistsToast
      <-> trim n <> "" /\ In k (activities f))
  /\ (lastToast g = Some activityExistsToast ->
      activities g = activities f
      /\ selectedActivity g = selectedActivity f)
  /\ (trim n <> "" -> ~ In k (activities f) ->
      activities g = activities f ++ [k]
      /\ selectedActivity g = k
      /\ lastToast g = Some (activityAddedToast n)).
Proof.
  intros f k g.
  assert (N : Forall normalized (activities f))
    by (apply run_keeps_normalized, defaults_normalized).
  assert (Blank : trim n = "" -> g = toast invalidActivityToast (setNewActivity n f))
    by (intros B; apply addNewActivity_blank; exact B).
  assert (Known : trim n <> "" -> In k (activities f) ->
                  g = toast activityExistsToast (setNewActivity n f))
    by (intros B K; apply addNewActivity_known; assumption).
  assert (Fresh : trim n <> "" -> ~ In k (activities f) ->
                  g = toast (activityAddedToast n)
                        (setShowNewActivityInput false
                           (setNewActivity ""
                              (setSelectedActivity k
                                 (setActivities (activities f ++ [k])
                                    (setNewActivity n f))))))
    by (intros B K; apply (addNewActivity_fresh (setNewActivity n f)); assumption).
  assert (Cases : trim n = "" \/ trim n <> "")
    by (destruct (string_dec (trim n) "") as [B|B]; [now left | now right]).
  assert (Mem : In k (activities f) \/ ~ In k (activities f))
    by (destruct (in_dec string_dec k (activities f)); [now left | now right]).
  split; [apply includes_case_insensitive; exact N|].
  split; [intros B; rewrite (Blank B), lastToast_toast; now repeat split|].
  split; [split|split].
  - intros T. destruct Cases as [B|B].
    + rewrite (Blank B), lastToast_toast in T. discriminate T.
    + split; [exact B|]. destruct Mem as [K|K]; [exact K|].
      rewrite (Fresh B K), lastToast_toast in T. discriminate T.
  - intros [B K]. now rewrite (Known B K), lastToast_toast.
  - intros T. destruct Cases as [B|B].
    + rewrite (Blank B), lastToast_toast in T. discriminate T.
    + destruct Mem as [K|K].
      * rewrite (Known B K). now split.
      * rewrite (Fresh B K), lastToast_toast in T. discriminate T.
  - intros B K. rewrite (Fresh B K), lastToast_toast. now repeat split.
Qed.

(** C10.  Every known activity is trimmed and in lower case: the
    defaults are, every handler of the component keeps the list that
    way (the only one that extends it appends the trimmed, lower-cased
    input), hence so is the list in every state the component can
    reach, where the duplicate check is therefore a case-insensitive
    match on trimmed names. *)
Theorem activities_stay_normalized :
  Forall normalized DEFAULT_ACTIVITIES
  /\ (forall (f : Form) (a : Action),
         Forall normalized (activities f) ->
         Forall normalized (activities (step f a)))
  /\ (forall (f : Form) (a : Action),
         activities (step f a) = activities f
         \/ activities (step f a)
            = activities f ++ [toLowerCase (trim (newActivity f))])
  /\ (forall acts : list Action,
         Forall normalized (activities (run acts mount)))
  /\ (forall (acts : list Action) (n : string),
         includes (activities (run acts mount)) (toLowerCase (trim n)) = true
         <-> exists e, In e (activities (run acts mount))
                       /\ toLowerCase (trim e) = toLowerCase (trim n)).
Proof.
  split; [exact defaults_normalized|].
  split; [exact step_keeps_normalized|].
  split; [exact step_activities|].
  split.
  - intros acts. apply run_keeps_normalized, defaults_normalized.
  - intros acts n. rewrite includes_In.
    apply includes_case_insensitive, run_keeps_normalized, defaults_normalized.
Qed.

End Activities.

(** ** The telemetry service *)

Section Telemetry.

Import MQTTService.

Lemma promise_new (w : World) :
  nth_error (promises w ++ [None]) (List.length (promises w))
  = Some (@None Outcome).
Proof.
  rewrite nth_error_app2 by lia. now rewrite Nat.sub_diag.
Qed.

Lemma settleAt_new (o : Outcome) (l : list (option Outcome)) :
  nth_error (settleAt (List.length l) o (l ++ [None])) (List.length l)
  = Some (Some o).
Proof.
  induction l as [|e l IH]; simpl; [reflexivity|].
  destruct e; exact IH.
Qed.

Lemma settleAt_length (p : nat) (o : Outcome) (l : list (option Outcome)) :
  List.length (settleAt p o l) = List.length l.
Proof.
  revert p. induction l as [|e l IH]; intros p; simpl; [reflexivity|].
  destruct e, p; simpl; now rewrite ?IH.
Qed.

(** *** What the methods do to the world *)

Lemma connect_unconfigured (cb : Callback) (w : World) :
  config (this w) = None ->
  connect cb w
  = (List.length (promises w),
     {| this := this w; now := now w; timers := timers w;
        promises := settleAt (List.length (promises w))
                      (Rejected "MQTT not configured") (promises w ++ [None]);
        delivered := delivered w; console := console w; draws := draws w |}).
Proof. intros H. unfold connect, bind. simpl. now rewrite H. Qed.

Lemma connect_configured (cb : Callback) (cfg : MQTTConfig) (w : World) :
  config (this w) = Some cfg ->
  connect cb w
  = (List.length (promises w),
     {| this := {| client := Some MockClient; onMessageCallback := Some cb;
                   config := Some cfg; isConnected := isConnected (this w) |};
        now := now w;
        timers := timers w ++ [{| due := now w + 500;
                                  task := ConnectTimeout (List.length (promises w)) |}];
        promises := promises w ++ [None];
        delivered := delivered w;
        console := console w
                   ++ [("Connecting to MQTT broker: " ++ brokerUrl cfg)%string];
        draws := draws w |}).
Proof. intros H. unfold connect, bind. simpl. rewrite H. simpl. now rewrite H. Qed.

Lemma disconnect_connected (w : World) :
  client (this w) = Some MockClient -> isConnected (this w) = true ->
  disconnect w
  = (List.length (promises w),
     {| this := {| client := Some MockClient; onMessageCallback := None;
                   config := config (this w); isConnected := false |};
        now := now w; timers := timers w;
        promises := settleAt (List.length (promises w)) Resolved
                      (promises w ++ [None]);
        delivered := delivered w;
        console := console w ++ ["MQTT connection ended";
                                 "Disconnected from MQTT broker"];
        draws := draws w |}).
Proof.
  intros C I. unfold disconnect, bind. simpl. rewrite C, I. simpl.
  rewrite C. now rewrite <- app_assoc.
Qed.

Lemma disconnect_idle (w : World) :
  client (this w) = None \/ isConnected (this w) = false ->
  disconnect w
  = (List.length (promises w),
     {| this := this w; now := now w; timers := timers w;
        promises := settleAt (List.length (promises w)) Resolved
                      (promises w ++ [None]);
        delivered := delivered w; console := console w; draws := draws w |}).
Proof.
  intros H. unfold disconnect, bind. simpl.
  destruct (client (this w)) as [[]|]; [|reflexivity].
  destruct H as [H|H]; [discriminate H|]. now rewrite H.
Qed.

(** *** What a timer does when it fires *)

Context {E : Engine}.

Ltac split_cases :=
  repeat (simpl;
          match goal with
          | H : ?a = _ |- context [match ?a with _ => _ end] => rewrite H
          | |- context [match ?a with _ => _ end] => destruct a eqn:?
          end);
  simpl.

Ltac open_fire k v :=
  unfold fire, exec, connectTimeout, onConnect, startMockDataGeneration,
    mockInterval, randomValue, bind;
  split_cases.

Lemma fire_now (k : Timer) (v : World) : now (exec (fire k) v) = now v.
Proof. open_fire k v; reflexivity. Qed.

Lemma fire_timers (k : Timer) (v : World) :
  exists extra, timers (exec (fire k) v) = timers v ++ extra.
Proof.
  open_fire k v;
    solve [ exists []; now rewrite app_nil_r | eexists; reflexivity ].
Qed.

Lemma fire_config (k : Timer) (v : World) :
  config (this (exec (fire k) v)) = config (this v)
  /\ client (this (exec (fire k) v)) = client (this v)
  /\ onMessageCallback (this (exec (fire k) v)) = onMessageCallback (this v).
Proof. open_fire k v; repeat split; congruence. Qed.

Lemma fire_isConnected (k : Timer) (v : World) :
  isConnected (this v) = true -> isConnected (this (exec (fire k) v)) = true.
Proof. open_fire k v; congruence. Qed.

Lemma fire_delivered (k : Timer) (v : World) :
  delivered (exec (fire k) v) = delivered v
  \/ exists cb,
       task k = MockInterval
       /\ isConnected (this v) = true
       /\ onMessageCallback (this v) = Some cb
       /\ delivered (exec (fire k) v)
          = delivered v ++ [(cb, mockData (draws v) (now v))].
Proof.
  unfold fire, exec, connectTimeout, onConnect, startMockDataGeneration,
    mockInterval, randomValue, bind.
  destruct (task k) eqn:T; simpl.
  - left. split_cases; reflexivity.
  - destruct (isConnected (this v)) eqn:I; [|now left].
    destruct (onMessageCallback (this v)) as [cb|] eqn:C; [|now left].
    right. exists cb. simpl. repeat split.
Qed.

Lemma fire_interval (k : Timer) (v : World) (cb : Callback) :
  task k = MockInterval ->
  isConnected (this v) = true ->
  onMessageCallback (this v) = Some cb ->
  delivered (exec (fire k) v)
  = delivered v ++ [(cb, mockData (draws v) (now v))].
Proof.
  intros T I C.
  unfold fire, exec, mockInterval, randomValue, bind.
  rewrite T. simpl. rewrite I, C. reflexivity.
Qed.

Lemma fire_interval_off (k : Timer) (v : World) :
  task k = MockInterval ->
  isConnected (this v) = false ->
  exec (fire k) v = v.
Proof.
  intros T I.
  unfold fire, exec, mockInterval, bind.
  rewrite T. simpl. rewrite I. reflexivity.
Qed.

Lemma fire_promises (k : Timer) (v : World) :
  promises (exec (fire k) v) = promises v
  \/ exists p, task k = ConnectTimeout p
              /\ promises (exec (fire k) v) = settleAt p Resolved (promises v).
Proof.
  unfold fire, exec, connectTimeout, onConnect, startMockDataGeneration,
    mockInterval, randomValue, bind.
  destruct (task k) as [p|] eqn:T; simpl.
  - destruct (config (this v)) eqn:C; [|now left].
    destruct (client (this v)) as [[]|] eqn:M; [|now left].
    right. exists p. split; [reflexivity|].
    split_cases; reflexivity.
  - left. split_cases; reflexivity.
Qed.

Lemma fire_connect (k : Timer) (v : World) (p : nat) (cfg : MQTTConfig)
    (cb : Callback) :
  task k = ConnectTimeout p ->
  config (this v) = Some cfg ->
  client (this v) = Some MockClient ->
  onMessageCallback (this v) = Some cb ->
  promises (exec (fire k) v) = settleAt p Resolved (promises v)
  /\ isConnected (this (exec (fire k) v)) = true
  /\ timers (exec (fire k) v)
     = timers v ++ [{| due := now v + 1000; task := MockInterval |}].
Proof.
  intros T C M O.
  unfold fire, exec, connectTimeout, onConnect, startMockDataGeneration, bind.
  rewrite T. simpl. rewrite C, M. simpl. rewrite O. simpl.
  repeat split.
Qed.

(** *** The event loop *)

Lemma tick_unfold (w : World) :
  tick w
  = fireAll (filter (fun k => (due k <=? now w + 1)%Z) (timers w)) (advance w).
Proof. reflexivity. Qed.

Lemma fireAll_app (l1 l2 : list Timer) (v : World) :
  fireAll (l1 ++ l2) v = fireAll l2 (fireAll l1 v).
Proof. apply fold_left_app. Qed.

Section Invariants.

Variable P : World -> Prop.
Hypothesis P_fire : forall k v, P v -> P (exec (fire k) v).

Lemma fireAll_inv (l : list Timer) (v : World) : P v -> P (fireAll l v).
Proof.
  revert v. induction l as [|k l IH]; intros v H; simpl; [exact H|].
  apply IH, P_fire, H.
Qed.

Hypothesis P_advance : forall w, P w -> P (advance w).

Lemma tick_inv (w : World) : P w -> P (tick w).
Proof. intros H. rewrite tick_unfold. apply fireAll_inv, P_advance, H. Qed.

Lemma elapse_inv (n : nat) (w : World) : P w -> P (elapse n w).
Proof.
  revert w. induction n as [|n IH]; intros w H; simpl; [exact H|].
  apply IH, tick_inv, H.
Qed.

End Invariants.

Lemma fireAll_now (l : list Timer) (v : World) : now (fireAll l v) = now v.
Proof.
  apply (fireAll_inv (fun u => now u = now v)); [|reflexivity].
  intros k u H. now rewrite fire_now.
Qed.

Lemma fireAll_timers (l : list Timer) (v : World) (t : Timer) :
  In t (timers v) -> In t (timers (fireAll l v)).
Proof.
  apply (fireAll_inv (fun u => In t (timers u))).
  intros k u H. destruct (fire_timers k u) as [extra X]. rewrite X.
  apply in_or_app. now left.
Qed.

Lemma tick_now (w : World) : now (tick w) = (now w + 1)%Z.
Proof. rewrite tick_unfold, fireAll_now. reflexivity. Qed.

Lemma elapse_now (n : nat) (w : World) :
  now (elapse n w) = (now w + Z.of_nat n)%Z.
Proof.
  revert w. induction n as [|n IH]; intros w.
  - simpl. lia.
  - cbn [elapse]. rewrite IH, tick_now. lia.
Qed.

Lemma elapse_plus (m n : nat) (w : World) :
  elapse (m + n) w = elapse n (elapse m w).
Proof.
  revert w. induction m as [|m IH]; intros w; simpl; [reflexivity|].
  apply IH.
Qed.

(** *** The range of the generated readings *)

Lemma scale_range (r : Q) : (0 <= r < 1)%Q -> (-10 <= scale r <= 10)%Q.
Proof.
  intros [L U]. unfold scale.
  pose proof (round_int 0 ltac:(simpl; lia)) as R0.
  pose proof (round_int 20 ltac:(simpl; lia)) as R20.
  pose proof (round_int (-10) ltac:(simpl; lia)) as Rm.
  pose proof (round_int 10 ltac:(simpl; lia)) as R10.
  unfold inject_Z in R0, R20, Rm, R10.
  set (a := round (r * 20)).
  assert (A : (0 <= a <= 20)%Q).
  { assert (A0 : (round 0 <= a)%Q) by (apply round_le; lra).
    assert (A20 : (a <= round 20)%Q) by (apply round_le; lra).
    lra. }
  assert (Bm : (round (-10) <= round (a - 10))%Q) by (apply round_le; lra).
  assert (B10 : (round (a - 10) <= round 10)%Q) by (apply round_le; lra).
  lra.
Qed.

Lemma mockData_inRange (n : nat) (t : Z) : inRange (mockData n t).
Proof.
  unfold inRange, mockData. simpl.
  repeat split; apply scale_range; apply Math_random_range.
Qed.

Lemma fire_allInRange (k : Timer) (v : World) :
  allInRange v -> allInRange (exec (fire k) v).
Proof.
  unfold allInRange. intros H.
  destruct (fire_delivered k v) as [D|[cb [_ [_ [_ D]]]]]; rewrite D; [exact H|].
  apply Forall_app. split; [exact H|].
  constructor; [apply mockData_inRange | constructor].
Qed.

Lemma connect_delivered (cb : Callback) (w : World) :
  delivered (exec (connect cb) w) = delivered w.
Proof.
  unfold exec. destruct (config (this w)) as [cfg|] eqn:C.
  - now rewrite (connect_configured cb cfg w C).
  - now rewrite (connect_unconfigured cb w C).
Qed.

Lemma disconnect_delivered (w : World) :
  delivered (exec disconnect w) = delivered w.
Proof.
  unfold exec.
  destruct (client (this w)) as [[]|] eqn:C.
  - destruct (isConnected (this w)) eqn:I.
    + now rewrite (disconnect_connected w C I).
    + now rewrite (disconnect_idle w (or_intror I)).
  - now rewrite (disconnect_idle w (or_introl C)).
Qed.

Lemma perform_allInRange (w : World) (c : Call) :
  allInRange w -> allInRange (perform w c).
Proof.
  intros H. destruct c as [cfg|cb| |ms]; simpl.
  - exact H.
  - unfold allInRange. now rewrite connect_delivered.
  - unfold allInRange. now rewrite disconnect_delivered.
  - apply elapse_inv; [exact fire_allInRange | intros u Hu; exact Hu | exact H].
Qed.

(** C9.  Whatever the page does with a freshly built service, every
    sample the mock generator hands to an observer has its six
    readings in [-10, 10]. *)
Theorem generated_samples_in_range
    (t0 : Z) (calls : list Call) (cb : Callback) (d : SensorData) :
  In (cb, d) (delivered (run calls (boot t0))) -> inRange d.
Proof.
  assert (H : allInRange (run calls (boot t0))).
  { unfold run.
    assert (G : forall w, allInRange w -> allInRange (fold_left perform calls w)).
    { induction calls as [|c l IH]; intros w Hw; simpl; [exact Hw|].
      apply IH, perform_allInRange, Hw. }
    apply G. constructor. }
  intros I. unfold allInRange in H. rewrite Forall_forall in H.
  exact (H (cb, d) I).
Qed.

(** *** Promises *)

Lemma settleAt_nth (q p : nat) (o : Outcome) (l : list (option Outcome)) :
  nth_error (settleAt q o l) p
  = if p =? q
    then match nth_error l p with
         | Some None => Some (Some o)
         | e => e
         end
    else nth_error l p.
Proof.
  revert q p. induction l as [|e l IH]; intros q p; simpl.
  - destruct (p =? q), p; reflexivity.
  - destruct e, q, p; simpl; try reflexivity; apply IH.
Qed.

(** A promise that is pending or resolved is not rejected by a
    [resolve()], whichever promise that call is for. *)
Lemma settleAt_resolved_or_pending (q p : nat) (l : list (option Outcome)) :
  nth_error l p = Some None \/ nth_error l p = Some (Some Resolved) ->
  nth_error (settleAt q Resolved l) p = Some None
  \/ nth_error (settleAt q Resolved l) p = Some (Some Resolved).
Proof.
  intros H. rewrite settleAt_nth.
  destruct (p =? q); [|exact H].
  destruct H as [H|H]; rewrite H; now right.
Qed.

Lemma settleAt_resolved (q p : nat) (l : list (option Outcome)) :
  nth_error l p = Some (Some Resolved) ->
  nth_error (settleAt q Resolved l) p = Some (Some Resolved).
Proof.
  intros H. rewrite settleAt_nth, H. now destruct (p =? q).
Qed.

Lemma settleAt_pending (p : nat) (l : list (option Outcome)) :
  nth_error l p = Some None \/ nth_error l p = Some (Some Resolved) ->
  nth_error (settleAt p Resolved l) p = Some (Some Resolved).
Proof.
  intros H. rewrite settleAt_nth, Nat.eqb_refl.
  destruct H as [H|H]; now rewrite H.
Qed.

(** *** A timer in the queue fires when it is due *)

Section Due.

Variables Stable Reached : World -> Prop.
Variable t : Timer.

Hypothesis Stable_fire : forall k v, Stable v -> Stable (exec (fire k) v).
Hypothesis Stable_advance : forall v, Stable v -> Stable (advance v).
Hypothesis Reached_fire :
  forall k v, Stable v -> Reached v -> Reached (exec (fire k) v).
Hypothesis Reached_due :
  forall v, Stable v -> now v = due t -> Reached (exec (fire t) v).

Lemma fireAll_goal (l : list Timer) (v : World) :
  Stable v -> Reached v -> Stable (fireAll l v) /\ Reached (fireAll l v).
Proof.
  revert v. induction l as [|k l IH]; intros v HS HG; simpl; [now split|].
  apply IH; [apply Stable_fire | apply Reached_fire]; assumption.
Qed.

Lemma tick_due (w : World) :
  In t (timers w) -> due t = (now w + 1)%Z -> Stable w ->
  Stable (tick w) /\ Reached (tick w).
Proof.
  intros I D HS. rewrite tick_unfold.
  assert (R : In t (filter (fun k => (due k <=? now w + 1)%Z) (timers w))).
  { apply filter_In. split; [exact I|]. apply Z.leb_le. lia. }
  destruct (in_split _ _ R) as [l1 [l2 X]]. rewrite X.
  rewrite fireAll_app. cbn [fireAll fold_left]. fold (fireAll l2).
  assert (S1 : Stable (fireAll l1 (advance w)))
    by (apply fireAll_inv; [exact Stable_fire | apply Stable_advance, HS]).
  apply fireAll_goal.
  - apply Stable_fire, S1.
  - apply Reached_due; [exact S1|]. rewrite fireAll_now. simpl. lia.
Qed.

Lemma tick_wait (w : World) :
  In t (timers w) -> (now w + 1 < due t)%Z -> In t (timers (tick w)).
Proof.
  intros I D. rewrite tick_unfold. apply fireAll_timers. simpl.
  apply filter_In. split; [exact I|].
  apply negb_true_iff, Z.leb_gt. lia.
Qed.

Lemma elapse_due (n : nat) (w : World) :
  In t (timers w) -> due t = (now w + Z.of_nat (S n))%Z -> Stable w ->
  Stable (elapse (S n) w) /\ Reached (elapse (S n) w).
Proof.
  revert w. induction n as [|n IH]; intros w I D HS.
  - cbn [elapse]. apply tick_due; [exact I | lia | exact HS].
  - change (elapse (S (S n)) w) with (elapse (S n) (tick w)).
    apply IH.
    + apply tick_wait; [exact I | lia].
    + rewrite tick_now. lia.
    + apply tick_inv; assumption.
Qed.

End Due.

(** A [connect] in flight on a configured service ends well: when its
    timer is due the promise is resolved, the service is connected and
    the generator's interval is armed, one second ahead. *)
Lemma connect_timer_fires
    (cfg : MQTTConfig) (cb : Callback) (p n : nat) (w : World) :
  config (this w) = Some cfg ->
  client (this w) = Some MockClient ->
  onMessageCallback (this w) = Some cb ->
  promise p w = Some None \/ promise p w = Some (Some Resolved) ->
  In {| due := now w + Z.of_nat (S n); task := ConnectTimeout p |} (timers w) ->
  onMessageCallback (this (elapse (S n) w)) = Some cb
  /\ promise p (elapse (S n) w) = Some (Some Resolved)
  /\ isConnected (this (elapse (S n) w)) = true
  /\ In {| due := now w + Z.of_nat (S n) + 1000; task := MockInterval |}
        (timers (elapse (S n) w)).
Proof.
  intros C M O P I.
  set (t := {| due := now w + Z.of_nat (S n); task := ConnectTimeout p |}) in *.
  pose (Stable := fun v : World =>
          config (this v) = Some cfg
          /\ client (this v) = Some MockClient
          /\ onMessageCallback (this v) = Some cb
          /\ (promise p v = Some None \/ promise p v = Some (Some Resolved))).
  pose (Reached := fun v : World =>
          promise p v = Some (Some Resolved)
          /\ isConnected (this v) = true
          /\ In {| due := due t + 1000; task := MockInterval |} (timers v)).
  assert (G : Stable (elapse (S n) w) /\ Reached (elapse (S n) w)).
  { apply (elapse_due Stable Reached t).
    - intros k v [C' [M' [O' P']]].
      destruct (fire_config k v) as [E1 [E2 E3]].
      split; [congruence|]. split; [congruence|]. split; [congruence|].
      unfold promise.
      destruct (fire_promises k v) as [X|[q [_ X]]]; rewrite X;
        [exact P' | apply settleAt_resolved_or_pending, P'].
    - intros v H. exact H.
    - intros k v _ [R [J T]]. split; [|split].
      + unfold promise.
        destruct (fire_promises k v) as [X|[q [_ X]]]; rewrite X;
          [exact R | apply settleAt_resolved, R].
      + apply fire_isConnected, J.
      + destruct (fire_timers k v) as [extra X]. rewrite X.
        apply in_or_app. now left.
    - intros v [C' [M' [O' P']]] N.
      destruct (fire_connect t v p cfg cb eq_refl C' M' O') as [X [J T]].
      split; [|split].
      + unfold promise. rewrite X. apply settleAt_pending, P'.
      + exact J.
      + rewrite T, N. apply in_or_app. right. now left.
    - exact I.
    - reflexivity.
    - repeat split; assumption. }
  destruct G as [[_ [_ [O' _]]] [R [J T]]].
  repeat split; assumption.
Qed.

(** On a connected service with an observer, an interval in the queue
    delivers a sample when it is due. *)
Lemma interval_fires (cb : Callback) (n : nat) (w : World) :
  isConnected (this w) = true ->
  onMessageCallback (this w) = Some cb ->
  In {| due := now w + Z.of_nat (S n); task := MockInterval |} (timers w) ->
  exists d l1 l2,
    delivered (elapse (S n) w) = delivered w ++ l1 ++ (cb, d) :: l2
    /\ timestamp d = (now w + Z.of_nat (S n))%Z
    /\ inRange d.
Proof.
  intros J O I.
  set (t := {| due := now w + Z.of_nat (S n); task := MockInterval |}) in *.
  pose (Stable := fun v : World =>
          isConnected (this v) = true
          /\ onMessageCallback (this v) = Some cb
          /\ exists l, delivered v = delivered w ++ l).
  pose (Reached := fun v : World =>
          exists d l1 l2,
            delivered v = delivered w ++ l1 ++ (cb, d) :: l2
            /\ timestamp d = due t /\ inRange d).
  assert (G : Stable (elapse (S n) w) /\ Reached (elapse (S n) w)).
  { apply (elapse_due Stable Reached t).
    - intros k v [J' [O' [l D]]].
      destruct (fire_config k v) as [_ [_ E3]].
      split; [apply fire_isConnected, J'|]. split; [congruence|].
      destruct (fire_delivered k v) as [X|[c [_ [_ [_ X]]]]]; rewrite X, D.
      + now exists l.
      + eexists. now rewrite <- app_assoc.
    - intros v H. exact H.
    - intros k v _ [d [l1 [l2 [D [T R]]]]].
      exists d, l1.
      destruct (fire_delivered k v) as [X|[c [_ [_ [_ X]]]]]; rewrite X, D.
      + now exists l2.
      + eexists. split; [|now split].
        rewrite <- !app_assoc. cbn [app]. reflexivity.
    - intros v [J' [O' [l D]]] N.
      exists (mockData (draws v) (now v)), l, [].
      rewrite (fire_interval t v cb eq_refl J' O'), D.
      split; [now rewrite <- app_assoc|].
      split; [exact N | apply mockData_inRange].
    - exact I.
    - reflexivity.
    - repeat split; try assumption. exists []. now rewrite app_nil_r. }
  exact (proj2 G).
Qed.

(** Time only adds to what has been delivered. *)
Lemma elapse_delivered (n : nat) (w : World) :
  exists l, delivered (elapse n w) = delivered w ++ l.
Proof.
  apply (elapse_inv (fun v => exists l, delivered v = delivered w ++ l)).
  - intros k v [l D].
    destruct (fire_delivered k v) as [X|[c [_ [_ [_ X]]]]]; rewrite X, D.
    + now exists l.
    + eexists. now rewrite <- app_assoc.
  - intros v H. exact H.
  - exists []. now rewrite app_nil_r.
Qed.

(** *** connect *)

Lemma connect_then_sample
    (cfg : MQTTConfig) (cb : Callback) (w : World) :
  config (this w) = Some cfg ->
  let p := fst (connect cb w) in
  let w' := exec (connect cb) w in
  promise p w' = Some None
  /\ promise p (elapse 500 w') = Some (Some Resolved)
  /\ isConnected (this (elapse 500 w')) = true
  /\ exists d l1 l2,
       delivered (elapse 1500 w') = delivered w ++ l1 ++ (cb, d) :: l2
       /\ timestamp d = (now w + 1500)%Z
       /\ inRange d.
Proof.
  intros C p w'. subst p w'. unfold exec.
  rewrite (connect_configured cb cfg w C). cbn [fst snd].
  set (w' := {| this := _ |}).
  assert (P0 : promise (List.length (promises w)) w' = Some None)
    by apply promise_new.
  assert (I : In {| due := now w' + Z.of_nat (S 499);
                    task := ConnectTimeout (List.length (promises w)) |}
                 (timers w'))
    by (apply in_or_app; right; left; reflexivity).
  destruct (connect_timer_fires cfg cb (List.length (promises w)) 499 w'
              eq_refl eq_refl eq_refl (or_introl P0) I)
    as [O [R [J T]]].
  change (S 499) with 500 in *.
  split; [exact P0|]. split; [exact R|]. split; [exact J|].
  assert (T' : In {| due := now (elapse 500 w') + Z.of_nat (S 999);
                     task := MockInterval |} (timers (elapse 500 w'))).
  { rewrite elapse_now.
    replace (now w' + Z.of_nat 500 + Z.of_nat (S 999))%Z
      with (now w' + Z.of_nat 500 + 1000)%Z by lia.
    exact T. }
  destruct (interval_fires cb 999 (elapse 500 w') J O T')
    as [d [l1 [l2 [D [TS R']]]]].
  destruct (elapse_delivered 500 w') as [l0 D0].
  exists d, (l0 ++ l1), l2.
  change 1500 with (500 + S 999). rewrite elapse_plus.
  split; [|split].
  - rewrite D, D0. change (delivered w') with (delivered w).
    rewrite <- !app_assoc. reflexivity.
  - rewrite TS, elapse_now. change (now w') with (now w). lia.
  - exact R'.
Qed.

(** C3, as stated, fails: on a service that was never configured,
    [connect] is rejected, the service stays disconnected, no timer is
    armed, and the observer never receives a sample. *)
Lemma connect_unconfigured_rejected :
  let w := exec (connect 7) (boot 0) in
  promise (fst (connect 7 (boot 0))) w
  = Some (Some (Rejected "MQTT not configured"))
  /\ isConnected (this w) = false
  /\ timers w = []
  /\ forall ms : nat, delivered (elapse (E := fixedPoint) ms w) = [].
Proof.
  repeat split.
  intros ms.
  assert (G : forall (n : nat) (v : World),
             timers v = [] -> delivered v = [] ->
             delivered (elapse (E := fixedPoint) n v) = []).
  { induction n as [|n IH]; intros v T D; simpl; [exact D|].
    apply IH; unfold tick, advance; rewrite T; simpl; [reflexivity | exact D]. }
  apply G; reflexivity.
Qed.

(** C3, amended.  Without a configuration [connect] fails: the promise
    it returns is rejected with "MQTT not configured" and nothing else
    changes, so no generator is started and no sample follows from the
    call.  The generator is what runs when a configuration is present
    (the transport is a mock): the promise is then pending, resolves
    500 ms later with the service connected, and 1000 ms after that
    the observer receives a generated sample. *)
Theorem connect_needs_configuration (w : World) (cb : Callback) :
  let p := fst (connect cb w) in
  let w' := exec (connect cb) w in
  (config (this w) = None ->
   promise p w' = Some (Some (Rejected "MQTT not configured"))
   /\ this w' = this w
   /\ timers w' = timers w
   /\ delivered w' = delivered w
   /\ console w' = console w
   /\ now w' = now w
   /\ draws w' = draws w)
  /\ (config (this w) <> None ->
      promise p w' = Some None
      /\ promise p (elapse 500 w') = Some (Some Resolved)
      /\ isConnected (this (elapse 500 w')) = true
      /\ exists d l1 l2,
           delivered (elapse 1500 w') = delivered w ++ l1 ++ (cb, d) :: l2
           /\ timestamp d = (now w + 1500)%Z
           /\ inRange d).
Proof.
  intros p w'. split.
  - intros C. subst p w'. unfold exec.
    rewrite (connect_unconfigured cb w C). cbn [fst snd].
    split; [apply settleAt_new|]. repeat split.
  - intros C. destruct (config (this w)) as [cfg|] eqn:X; [|congruence].
    exact (connect_then_sample cfg cb w X).
Qed.

(** C4, as stated, fails: a [connect] issued while another is in
    flight is not rejected. *)
Lemma second_connect_not_rejected :
  ~ (forall (w : World) (cb : Callback) (p : nat),
        connecting p w -> promise p w = Some None ->
        exists message : string,
          promise (fst (connect cb w)) (exec (connect cb) w)
          = Some (Some (Rejected message))).
Proof.
  intros H.
  destruct (H (exec (connect 1) (exec (configure formConfig) (boot 0))) 2 0)
    as [message X].
  - exists 500%Z. split; [left; reflexivity | reflexivity].
  - reflexivity.
  - vm_compute in X. discriminate X.
Qed.

(** C4, amended.  The service has no busy state.  A [connect] issued
    while another is in flight on a configured service is accepted like
    any other: its promise is pending, it replaces the observer, and it
    arms a timer of its own behind the first, which stays armed.  Both
    promises are resolved, each when its timer is due. *)
Theorem second_connect_proceeds
    (w : World) (cfg : MQTTConfig) (cb : Callback) (p1 : nat) (d1 : Z) :
  config (this w) = Some cfg ->
  In {| due := d1; task := ConnectTimeout p1 |} (timers w) ->
  (now w < d1)%Z ->
  promise p1 w = Some None ->
  let p2 := fst (connect cb w) in
  let w' := exec (connect cb) w in
  p2 <> p1
  /\ promise p2 w' = Some None
  /\ promise p1 w' = Some None
  /\ this w' = {| client := Some MockClient; onMessageCallback := Some cb;
                  config := Some cfg; isConnected := isConnected (this w) |}
  /\ timers w'
     = timers w ++ [{| due := now w + 500; task := ConnectTimeout p2 |}]
  /\ promise p1 (elapse (Z.to_nat (d1 - now w)) w') = Some (Some Resolved)
  /\ promise p2 (elapse 500 w') = Some (Some Resolved).
Proof.
  intros C I D P p2 w'.
  destruct (connect_then_sample cfg cb w C) as [P2 [R2 _]].
  fold p2 w' in P2, R2.
  assert (L : p1 < List.length (promises w))
    by (apply nth_error_Some; unfold promise in P; congruence).
  assert (P1 : promise p1 w' = Some None).
  { subst w'. unfold exec, promise.
    rewrite (connect_configured cb cfg w C). cbn [snd promises].
    rewrite nth_error_app1 by exact L. exact P. }
  assert (T : timers w'
              = timers w ++ [{| due := now w + 500; task := ConnectTimeout p2 |}]).
  { subst p2 w'. unfold exec.
    rewrite (connect_configured cb cfg w C). reflexivity. }
  assert (S' : this w'
               = {| client := Some MockClient; onMessageCallback := Some cb;
                    config := Some cfg; isConnected := isConnected (this w) |}).
  { subst w'. unfold exec.
    rewrite (connect_configured cb cfg w C). reflexivity. }
  assert (N : now w' = now w).
  { subst w'. unfold exec.
    rewrite (connect_configured cb cfg w C). reflexivity. }
  split.
  { subst p2. rewrite (connect_configured cb cfg w C). cbn [fst]. lia. }
  split; [exact P2|]. split; [exact P1|]. split; [exact S'|].
  split; [exact T|]. split; [|exact R2].
  set (n := Z.to_nat (d1 - now w) - 1).
  replace (Z.to_nat (d1 - now w)) with (S n) by lia.
  apply (connect_timer_fires cfg cb p1 n w').
  - rewrite S'. reflexivity.
  - rewrite S'. reflexivity.
  - rewrite S'. reflexivity.
  - left. exact P1.
  - rewrite T, N. apply in_or_app. left.
    replace (now w + Z.of_nat (S n))%Z with d1 by lia. exact I.
Qed.

(** *** disconnect *)

Lemma tick_clientless (w : World) : clientless w -> clientless (tick w).
Proof.
  unfold clientless. intros H N.
  assert (M : client (this (tick w)) = client (this w)).
  { rewrite tick_unfold.
    apply (fireAll_inv (fun u => client (this u) = client (this w)));
      [|reflexivity].
    intros k u Hu. destruct (fire_config k u) as [_ [X _]]. congruence. }
  rewrite M in N. destruct (H N) as [I T].
  rewrite tick_unfold. unfold advance. rewrite T. simpl.
  split; [exact I | reflexivity].
Qed.

Lemma perform_clientless (w : World) (c : Call) :
  clientless w -> clientless (perform w c).
Proof.
  intros H. destruct c as [cfg|cb| |ms]; simpl.
  - exact H.
  - unfold clientless, exec. destruct (config (this w)) as [cfg|] eqn:C.
    + rewrite (connect_configured cb cfg w C). simpl. discriminate.
    + rewrite (connect_unconfigured cb w C). exact H.
  - unfold clientless, exec. destruct (client (this w)) as [[]|] eqn:C.
    + destruct (isConnected (this w)) eqn:I.
      * rewrite (disconnect_connected w C I). simpl. discriminate.
      * rewrite (disconnect_idle w (or_intror I)). simpl.
        rewrite C. discriminate.
    + rewrite (disconnect_idle w (or_introl C)). simpl.
      intros _. apply H. exact C.
  - revert w H. induction ms as [|n IH]; intros w H; simpl; [exact H|].
    apply IH, tick_clientless, H.
Qed.

Lemma run_clientless (t0 : Z) (calls : list Call) :
  clientless (run calls (boot t0)).
Proof.
  unfold run.
  assert (G : forall w, clientless w -> clientless (fold_left perform calls w)).
  { induction calls as [|c l IH]; intros w H; simpl; [exact H|].
    apply IH, perform_clientless, H. }
  apply G. intros _. split; reflexivity.
Qed.

Lemma disconnect_disconnects (w : World) :
  clientless w -> isConnected (this (exec disconnect w)) = false.
Proof.
  intros H. unfold exec. destruct (client (this w)) as [[]|] eqn:C.
  - destruct (isConnected (this w)) eqn:I.
    + now rewrite (disconnect_connected w C I).
    + now rewrite (disconnect_idle w (or_intror I)).
  - rewrite (disconnect_idle w (or_introl C)). apply H, C.
Qed.

Lemma disconnect_resolves (w : World) :
  promise (fst (disconnect w)) (exec disconnect w) = Some (Some Resolved).
Proof.
  unfold exec, promise. destruct (client (this w)) as [[]|] eqn:C.
  - destruct (isConnected (this w)) eqn:I.
    + rewrite (disconnect_connected w C I). apply settleAt_new.
    + rewrite (disconnect_idle w (or_intror I)). apply settleAt_new.
  - rewrite (disconnect_idle w (or_introl C)). apply settleAt_new.
Qed.

Lemma disconnect_noop (w : World) :
  isConnected (this w) = false ->
  this (exec disconnect w) = this w
  /\ timers (exec disconnect w) = timers w
  /\ delivered (exec disconnect w) = delivered w
  /\ console (exec disconnect w) = console w
  /\ now (exec disconnect w) = now w
  /\ draws (exec disconnect w) = draws w.
Proof.
  intros I. unfold exec. rewrite (disconnect_idle w (or_intror I)).
  repeat split.
Qed.

Lemma disconnect_leaves_idle (w : World) :
  client (this (exec disconnect w)) = None
  \/ isConnected (this (exec disconnect w)) = false.
Proof.
  unfold exec. destruct (client (this w)) as [[]|] eqn:C.
  - right. destruct (isConnected (this w)) eqn:I.
    + now rewrite (disconnect_connected w C I).
    + now rewrite (disconnect_idle w (or_intror I)).
  - left. now rewrite (disconnect_idle w (or_introl C)).
Qed.

(** C6.  [disconnect] on a service that is not connected resolves and
    changes nothing.  After any [disconnect], in any state, a second
    one resolves as well and leaves the fields of the service, the
    timers, the console and the observer's log as the first left them;
    and on a service built and used through its methods the state they
    leave is the disconnected one.  [disconnectMqtt] of
    services/mqttService.ts ends the client at most once: called again
    it finds no client, sends nothing to the broker library, and only
    notes on the console that the client was already disconnected. *)
Theorem disconnect_idempotent :
  (forall w : World,
      isConnected (this w) = false ->
      promise (fst (disconnect w)) (exec disconnect w) = Some (Some Resolved)
      /\ this (exec disconnect w) = this w
      /\ timers (exec disconnect w) = timers w
      /\ delivered (exec disconnect w) = delivered w
      /\ console (exec disconnect w) = console w)
  /\ (forall w : World,
        let w1 := exec disconnect w in
        let w2 := exec disconnect w1 in
        promise (fst (disconnect w)) w1 = Some (Some Resolved)
        /\ promise (fst (disconnect w1)) w2 = Some (Some Resolved)
        /\ this w2 = this w1
        /\ timers w2 = timers w1
        /\ delivered w2 = delivered w1
        /\ console w2 = console w1
        /\ now w2 = now w1
        /\ draws w2 = draws w1)
  /\ (forall (t0 : Z) (calls : list Call),
        let w1 := exec disconnect (run calls (boot t0)) in
        isConnected (this w1) = false
        /\ isConnected (this (exec disconnect w1)) = false)
  /\ (forall s : mqttService.State,
        let s1 := mqttService.disconnectMqtt s in
        let s2 := mqttService.disconnectMqtt s1 in
        mqttService.client s1 = None
        /\ mqttService.client s2 = None
        /\ mqttService.requests s2 = mqttService.requests s1
        /\ mqttService.console s2
           = mqttService.console s1 ++ ["MQTT client already disconnected"]).
Proof.
  split; [|split; [|split]].
  - intros w I. split; [apply disconnect_resolves|].
    destruct (disconnect_noop w I) as [A [B [C [D _]]]]. now repeat split.
  - intros w w1 w2.
    split; [apply disconnect_resolves|]. split; [apply disconnect_resolves|].
    pose proof (disconnect_idle w1 (disconnect_leaves_idle w)) as X.
    subst w2. unfold exec. rewrite X.
    repeat split.
  - intros t0 calls w1.
    assert (I : isConnected (this w1) = false)
      by (apply disconnect_disconnects, run_clientless).
    split; [exact I|].
    destruct (disconnect_noop w1 I) as [A _]. now rewrite A.
  - intros s s1 s2. subst s1 s2. unfold mqttService.disconnectMqtt.
    destruct (mqttService.client s) eqn:C; simpl; rewrite ?C; simpl;
      repeat split; exact C.
Qed.

(** *** The generator after disconnect *)

(** C5 fails on this run.  The page configures the service and calls
    [connect]; 100 ms later, the connection timer being still armed, it
    calls [disconnect], whose promise is resolved at once.  At 500 ms
    the timer fires all the same and starts the generator, and at
    1500 ms the observer is handed a sample. *)
Theorem sample_after_disconnect :
  let w := run [Configure formConfig; Connect 7; Wait 100] (boot 0) in
  let w' := exec disconnect w in
  connecting 0 w
  /\ promise (fst (disconnect w)) w' = Some (Some Resolved)
  /\ isConnected (this w') = false
  /\ delivered w' = []
  /\ isConnected (this (elapse 400 w')) = true
  /\ delivered (elapse 1400 w') = [(7, mockData 0 1500)]
  /\ delivered (elapse 2400 w')
     = [(7, mockData 0 1500); (7, mockData 6 2500)].
Proof.
  intros w w'.
  split.
  { exists 500%Z. split; [vm_compute; left; reflexivity | vm_compute; reflexivity]. }
  by_evaluation.
Qed.

(** The run above is one of a family: whenever [disconnect] is called
    on a configured service whose [connect] is still in flight, it
    resolves without cancelling anything, and one second after the
    connection timer is due the observer is handed a sample. *)
Lemma disconnect_does_not_cancel_connect
    (w : World) (cfg : MQTTConfig) (cb : Callback) (p n : nat) :
  config (this w) = Some cfg ->
  client (this w) = Some MockClient ->
  onMessageCallback (this w) = Some cb ->
  isConnected (this w) = false ->
  promise p w = Some None ->
  In {| due := now w + Z.of_nat (S n); task := ConnectTimeout p |} (timers w) ->
  let w' := exec disconnect w in
  promise (fst (disconnect w)) w' = Some (Some Resolved)
  /\ delivered w' = delivered w
  /\ exists d l1 l2,
       delivered (elapse (S n + 1000) w') = delivered w ++ l1 ++ (cb, d) :: l2
       /\ timestamp d = (now w + Z.of_nat (S n) + 1000)%Z
       /\ inRange d.
Proof.
  intros C M O J P I w'.
  split; [apply disconnect_resolves|].
  split; [apply disconnect_delivered|].
  assert (X : w' = snd (disconnect w)) by reflexivity.
  rewrite (disconnect_idle w (or_intror J)) in X. cbn [snd] in X.
  assert (L : p < List.length (promises w))
    by (apply nth_error_Some; unfold promise in P; congruence).
  assert (P' : promise p w' = Some None).
  { rewrite X. unfold promise. cbn [promises].
    rewrite settleAt_nth.
    destruct (Nat.eqb_spec p (List.length (promises w))) as [Q|_]; [lia|].
    rewrite nth_error_app1 by exact L. exact P. }
  assert (I' : In {| due := now w' + Z.of_nat (S n); task := ConnectTimeout p |}
                  (timers w'))
    by (rewrite X; exact I).
  assert (C' : config (this w') = Some cfg) by (rewrite X; exact C).
  assert (M' : client (this w') = Some MockClient) by (rewrite X; exact M).
  assert (O0 : onMessageCallback (this w') = Some cb) by (rewrite X; exact O).
  destruct (connect_timer_fires cfg cb p n w' C' M' O0 (or_introl P') I')
    as [O' [_ [J' T]]].
  assert (T' : In {| due := now (elapse (S n) w') + Z.of_nat (S 999);
                     task := MockInterval |} (timers (elapse (S n) w'))).
  { rewrite elapse_now.
    replace (now w' + Z.of_nat (S n) + Z.of_nat (S 999))%Z
      with (now w' + Z.of_nat (S n) + 1000)%Z by lia.
    exact T. }
  destruct (interval_fires cb 999 (elapse (S n) w') J' O' T')
    as [d [l1 [l2 [D [TS R]]]]].
  destruct (elapse_delivered (S n) w') as [l0 D0].
  exists d, (l0 ++ l1), l2.
  change 1000 with (S 999). rewrite elapse_plus.
  split; [|split].
  - rewrite D, D0. replace (delivered w') with (delivered w) by (rewrite X; reflexivity).
    rewrite <- !app_assoc. reflexivity.
  - rewrite TS, elapse_now.
    replace (now w') with (now w) by (rewrite X; reflexivity). lia.
  - exact R.
Qed.

(** Intervals that find the service disconnected clear themselves. *)
Lemma fireAll_off (l : list Timer) (v : World) :
  isConnected (this v) = false ->
  Forall (fun k => task k = MockInterval) l ->
  fireAll l v = v.
Proof.
  intros I H. induction H as [|k l K _ IH]; simpl; [reflexivity|].
  rewrite (fire_interval_off k v K I). exact IH.
Qed.

Lemma tick_off (v : World) :
  isConnected (this v) = false ->
  Forall (fun k => task k = MockInterval) (timers v) ->
  tick v = advance v.
Proof.
  intros I H. rewrite tick_unfold. apply fireAll_off; [exact I|].
  rewrite Forall_forall in *. intros k F. apply filter_In in F.
  apply H, F.
Qed.

Lemma disconnect_timers (w : World) :
  timers (exec disconnect w) = timers w.
Proof.
  unfold exec. destruct (client (this w)) as [[]|] eqn:C.
  - destruct (isConnected (this w)) eqn:I.
    + now rewrite (disconnect_connected w C I).
    + now rewrite (disconnect_idle w (or_intror I)).
  - now rewrite (disconnect_idle w (or_introl C)).
Qed.

(** X1.  With no [connect] in flight (every timer in the queue is an
    interval of the generator), [disconnect] on a service built and
    used through its methods resolves and stops the generator for good:
    the intervals find the service disconnected and clear themselves,
    and the observer is not called again, however long the page
    waits. *)
Theorem disconnect_stops_generator (w : World) (n : nat) :
  clientless w ->
  Forall (fun k => task k = MockInterval) (timers w) ->
  let w' := exec disconnect w in
  promise (fst (disconnect w)) w' = Some (Some Resolved)
  /\ delivered (elapse n w') = delivered w
  /\ isConnected (this (elapse n w')) = false.
Proof.
  intros H F w'.
  split; [apply disconnect_resolves|].
  assert (G : forall (m : nat) (v : World),
             isConnected (this v) = false ->
             Forall (fun k => task k = MockInterval) (timers v) ->
             delivered (elapse m v) = delivered v
             /\ isConnected (this (elapse m v)) = false).
  { induction m as [|m IH]; intros v I T; cbn [elapse]; [now split|].
    rewrite (tick_off v I T).
    destruct (IH (advance v)) as [D J].
    - exact I.
    - unfold advance. cbn [timers]. rewrite Forall_forall in *.
      intros k K. apply filter_In in K. apply T, K.
    - split; [exact D | exact J]. }
  destruct (G n w') as [D J].
  - apply disconnect_disconnects, H.
  - subst w'. rewrite disconnect_timers. exact F.
  - split; [|exact J]. rewrite D. apply disconnect_delivered.
Qed.

End Telemetry.

(** ** Runs on the fixed-point engine *)

Section Runs.

Import MQTTService.

Lemma second_connect_proceeds_witness :
  let w := exec (connect 1) (exec (configure formConfig) (boot 0)) in
  let w' := exec (connect 2) w in
  (config (this w) = Some formConfig
   /\ In {| due := 500; task := ConnectTimeout 0 |} (timers w)
   /\ (now w < 500)%Z
   /\ promise 0 w = Some None)
  /\ promise (fst (connect 2 w)) w' = Some None
  /\ promise 0 (elapse (E := fixedPoint) (Z.to_nat (500 - now w)) w')
     = Some (Some Resolved)
  /\ promise (fst (connect 2 w)) (elapse (E := fixedPoint) 500 w')
     = Some (Some Resolved).
Proof.
  intros w w'.
  assert (C : config (this w) = Some formConfig) by reflexivity.
  assert (I : In {| due := 500; task := ConnectTimeout 0 |} (timers w))
    by (left; reflexivity).
  assert (D : (now w < 500)%Z) by reflexivity.
  assert (P : promise 0 w = Some None) by reflexivity.
  pose proof (second_connect_proceeds (E := fixedPoint)
                w formConfig 2 0 500 C I D P) as H.
  split; [exact (conj C (conj I (conj D P)))|].
  split; [exact (proj1 (proj2 H))|].
  split; [exact (proj1 (proj2 (proj2 (proj2 (proj2 (proj2 H))))))|].
  exact (proj2 (proj2 (proj2 (proj2 (proj2 (proj2 H)))))).
Defined.


Lemma generated_samples_in_range_witness :
  let w := run (E := fixedPoint)
             [Configure formConfig; Connect 7; Wait 1500] (boot 0) in
  In (7, mockData (E := fixedPoint) 0 1500) (delivered w)
  /\ inRange (mockData (E := fixedPoint) 0 1500).
Proof.
  intros w.
  assert (I : In (7, mockData (E := fixedPoint) 0 1500) (delivered w))
    by (vm_compute; left; reflexivity).
  split; [exact I|].
  exact (generated_samples_in_range (E := fixedPoint) 0 _ 7 _ I).
Defined.

Lemma disconnect_stops_generator_witness :
  let w := run (E := fixedPoint)
             [Configure formConfig; Connect 7; Wait 2600] (boot 0) in
  (clientless w /\ Forall (fun k => task k = MockInterval) (timers w))
  /\ List.length (delivered w) = 2
  /\ delivered (elapse (E := fixedPoint) 4000 (exec disconnect w))
     = delivered w.
Proof.
  intros w.
  assert (H : clientless w) by apply run_clientless.
  assert (F : Forall (fun k => task k = MockInterval) (timers w))
    by (vm_compute; repeat constructor).
  split; [exact (conj H F)|].
  split; [vm_compute; reflexivity|].
  exact (proj1 (proj2 (disconnect_stops_generator (E := fixedPoint)
                         w 4000 H F))).
Defined.

End Runs.

(** ** Worked examples *)

Section Examples.

Import JS DataCollectionForm.

(** [trim] and [toLowerCase] on a typed name. *)
Example normalize_typed_name :
  toLowerCase (trim "  Stair Climbing ") = "stair climbing".
Proof. reflexivity. Qed.

(** "Walking" is refused: "walking" is one of the defaults. *)
Example walking_is_known :
  lastToast (addActivity "Walking" mount) = Some activityExistsToast
  /\ activities (addActivity "Walking" mount) = DEFAULT_ACTIVITIES.
Proof. split; reflexivity. Qed.

(** A new name is stored trimmed and in lower case, and selected; the
    same name in another case is then refused. *)
Example running_then_Running :
  let f := addActivity " Running" mount in
  activities f = ["standing"; "sitting"; "walking"; "running"]
  /\ selectedActivity f = "running"
  /\ lastToast (addActivity "RUNNING " f) = Some activityExistsToast.
Proof. repeat split. Qed.

(** Twenty-five samples: the window holds the last twenty. *)
Example window_after_25_samples :
  chartDataRef
    (fold_left (fun g d => handleSensorData d g) (samplesFor 25) mount)
  = skipn 5 (samplesFor 25).
Proof. reflexivity. Qed.

(** The scenario of the specification: "walking" is selected, five
    samples arrive, recording stops, the data is saved. *)
Example five_samples_saved :
  let f := session "walking" (samplesFor 5)
             (setSelectedActivity "walking" mount) in
  List.length (chartDataRef f) = 5
  /\ isCollecting f = false
  /\ lastToast f
     = Some {| title := "Data Collection Stopped";
               description := "Collected 5 data points for walking";
               variant := Default |}
  /\ lastToast (saveData f)
     = Some {| title := "Data Saved";
               description := "5 data points saved for walking";
               variant := Default |}.
Proof. repeat split. Qed.

(** "Start Recording" with no activity selected only shows an error. *)
Example start_without_activity :
  startCollection_call mount
  = (toast {| title := "Error";
              description := "Please select an activity first";
              variant := Destructive |} mount, None).
Proof. reflexivity. Qed.

(** *** On the page *)

Context {E : Engine}.

(** The scenario of the specification, end to end: the activity is
    picked, recording starts, and 5600 ms later, five samples having
    come in at 1500, 2500, ... 5500 ms, recording is stopped and the
    data saved. *)
Example page_five_samples :
  let pg := Page.play [Page.Do (ClickBadge "walking"); Page.Do ClickStart;
                       Page.Pass 4000; Page.Pass 1600; Page.Do ClickStop]
              (Page.load 0) in
  map timestamp (chartDataRef (Page.form pg))
  = [1500; 2500; 3500; 4500; 5500]%Z
  /\ sensorData (Page.form pg) = chartDataRef (Page.form pg)
  /\ isCollecting (Page.form pg) = false
  /\ MQTTService.isConnected (MQTTService.this (Page.world pg)) = false
  /\ lastToast (Page.form (Page.call ClickSave pg))
     = Some (dataSavedToast 5 "walking").
Proof.
  intros pg. by_evaluation.
Qed.

(** Twenty-one samples come in; the window, and with it the save,
    holds the last twenty. *)
Example page_twenty_one_samples :
  let pg := Page.play [Page.Do (ClickBadge "walking"); Page.Do ClickStart;
                       Page.Pass 4000; Page.Pass 4000; Page.Pass 4000;
                       Page.Pass 4000; Page.Pass 4000; Page.Pass 1600;
                       Page.Do ClickStop]
              (Page.load 0) in
  List.length (MQTTService.delivered (Page.world pg)) = 21
  /\ map timestamp (chartDataRef (Page.form pg))
     = map (fun i => (1000 * Z.of_nat i + 500)%Z) (seq 2 20)
  /\ lastToast (Page.form (Page.call ClickSave pg))
     = Some (dataSavedToast 20 "walking").
Proof.
  intros pg. by_evaluation.
Qed.

(** "Start Recording" pressed twice within half a second: both calls
    of [connect] go through, two generators run, and samples come in
    twice a second. *)
Example page_double_start :
  let pg := Page.play [Page.Do (ClickBadge "walking"); Page.Do ClickStart;
                       Page.Pass 100; Page.Do ClickStart; Page.Pass 2500]
              (Page.load 0) in
  MQTTService.promises (Page.world pg) = [Some Resolved; Some Resolved]
  /\ map timestamp (chartDataRef (Page.form pg))
     = [1500; 1600; 2500; 2600]%Z
  /\ map MQTTService.task (MQTTService.timers (Page.world pg))
     = [MQTTService.MockInterval; MQTTService.MockInterval].
Proof.
  intros pg. by_evaluation.
Qed.

(** The component is removed 100 ms after "Start Recording": the
    cleanup calls [disconnect], which resolves, and the generator
    starts all the same. *)
Example page_unmount_while_connecting :
  let pg := Page.play [Page.Do (ClickBadge "walking"); Page.Do ClickStart;
                       Page.Pass 100; Page.Unmount]
              (Page.load 0) in
  MQTTService.promises (Page.world pg) = [None; Some Resolved]
  /\ MQTTService.delivered (Page.world pg) = []
  /\ map (fun cd => timestamp (snd cd))
         (MQTTService.delivered (Page.world (Page.elapse 2400 pg)))
     = [1500; 2500]%Z
  /\ MQTTService.isConnected
       (MQTTService.this (Page.world (Page.elapse 2400 pg))) = true.
Proof.
  intros pg. by_evaluation.
Qed.

End Examples.

(** ** The component: what is shown and what the widgets allow *)

Section Rendering.

Import JS DataCollectionForm.

Lemma mapFrom_nth {A B} (f : A -> nat -> B) (l : list A) (i j : nat) :
  nth_error (mapFrom i f l) j
  = option_map (fun a => f a (i + j)) (nth_error l j).
Proof.
  revert i j. induction l as [|a l IH]; intros i j.
  - destruct j; reflexivity.
  - destruct j as [|j]; simpl.
    + now rewrite Nat.add_0_r.
    + rewrite IH. now rewrite Nat.add_succ_r.
Qed.

Lemma mapFrom_length {A B} (f : A -> nat -> B) (l : list A) (i : nat) :
  List.length (mapFrom i f l) = List.length l.
Proof.
  revert i. induction l as [|a l IH]; intros i; simpl; [reflexivity|].
  now rewrite IH.
Qed.

(** What a call does to the window and to the displayed samples. *)
Lemma step_window (f : Form) (a : Action) :
  (chartDataRef (step f a) = chartDataRef f
   /\ sensorData (step f a) = sensorData f)
  \/ (chartDataRef (step f a) = [] /\ sensorData (step f a) = [])
  \/ (exists d, chartDataRef (step f a) = lastn 20 (chartDataRef f ++ [d])
                /\ sensorData (step f a) = chartDataRef (step f a)).
Proof.
  destruct a; simpl; try (left; split; reflexivity).
  - left. unfold addNewActivity.
    destruct (negb (truthy (trim (newActivity f)))); [now split|].
    destruct (includes (activities f) (toLowerCase (trim (newActivity f))));
      now split.
  - left. destruct (negb (isCollecting f)); now split.
  - left. unfold startCollection_call.
    destruct (negb (truthy (selectedActivity f))); now split.
  - destruct o; [right; left | left]; now split.
  - left. unfold saveData.
    destruct (List.length (chartDataRef f) =? 0); now split.
  - right. right. exists data. split.
    + apply chartDataRef_handleSensorData.
    + apply sensorData_handleSensorData.
Qed.

Lemma run_snoc (acts : list Action) (a : Action) (f : Form) :
  run (acts ++ [a]) f = step (run acts f) a.
Proof. unfold run. now rewrite fold_left_app. Qed.

Lemma window_invariant (acts : list Action) :
  sensorData (run acts mount) = chartDataRef (run acts mount)
  /\ List.length (chartDataRef (run acts mount)) <= 20.
Proof.
  induction acts as [|a acts [IH1 IH2]] using rev_ind.
  - split; [reflexivity | simpl; lia].
  - rewrite run_snoc.
    destruct (step_window (run acts mount) a)
      as [[C D]|[[C D]|[d [C D]]]]; rewrite ?D, C.
    + split; [exact IH1 | exact IH2].
    + split; [reflexivity | simpl; lia].
    + split; [reflexivity|]. rewrite lastn_length. lia.
Qed.

(** X2.  In every state the component can reach, whatever the order of
    the calls, the samples on display are the window, the window holds
    at most 20 samples, and the charts get one row per sample of the
    window, in the same order, row [i] being named [i] and carrying
    the six readings of the [i]-th sample; they are drawn exactly when
    the window is not empty. *)
Theorem chart_shows_the_window (acts : list Action) (i : nat) :
  let f := run acts mount in
  sensorData f = chartDataRef f
  /\ List.length (chartDataRef f) <= 20
  /\ List.length (formatChartData (sensorData f)) = List.length (chartDataRef f)
  /\ nth_error (formatChartData (sensorData f)) i
     = option_map (rowOf i) (nth_error (chartDataRef f) i)
  /\ (chartData f = None <-> chartDataRef f = [])
  /\ (chartDataRef f <> [] ->
      chartData f = Some (formatChartData (chartDataRef f))).
Proof.
  intros f. destruct (window_invariant acts) as [S L]. fold f in S, L.
  split; [exact S|]. split; [exact L|].
  unfold chartData. rewrite S. unfold formatChartData, mapIndexed.
  split; [apply mapFrom_length|].
  split; [rewrite mapFrom_nth; reflexivity|].
  destruct (chartDataRef f) as [|d l]; simpl.
  - split; [split; reflexivity | intros H; now contradiction H].
  - split; [split; discriminate | reflexivity].
Qed.

(** What a call does to the list of activities. *)
Lemma step_activities_fresh (f : Form) (a : Action) :
  activities (step f a) = activities f
  \/ (activities (step f a)
      = activities f ++ [toLowerCase (trim (newActivity f))]
      /\ ~ In (toLowerCase (trim (newActivity f))) (activities f)
      /\ toLowerCase (trim (newActivity f)) <> ""
      /\ selectedActivity (step f a) = toLowerCase (trim (newActivity f))).
Proof.
  destruct a; simpl; try (left; reflexivity).
  - destruct (string_dec (trim (newActivity f)) "") as [B|B].
    + left. now rewrite (addNewActivity_blank f B).
    + destruct (in_dec string_dec (toLowerCase (trim (newActivity f)))
                  (activities f)) as [K|K].
      * left. now rewrite (addNewActivity_known f B K).
      * right. rewrite (addNewActivity_fresh f B K). simpl.
        repeat split; try assumption.
        intros E. apply B. destruct (trim (newActivity f)); [reflexivity|].
        discriminate E.
  - destruct (negb (isCollecting f)); now left.
  - unfold startCollection_call.
    destruct (negb (truthy (selectedActivity f))); now left.
  - destruct o; now left.
  - unfold saveData.
    destruct (List.length (chartDataRef f) =? 0); now left.
  - left. apply handleSensorData_frame.
Qed.

(** X3.  In every state the component can reach, the list of
    activities starts with the three defaults, only ever grows at its
    end, holds no name twice and no empty name. *)
Theorem activities_distinct (acts : list Action) :
  let l := activities (run acts mount) in
  NoDup l
  /\ Forall (fun a => a <> "") l
  /\ (exists added, l = DEFAULT_ACTIVITIES ++ added)
  /\ (forall a : Action,
         exists more, activities (step (run acts mount) a) = l ++ more).
Proof.
  intros l. subst l.
  assert (G : NoDup (activities (run acts mount))
              /\ Forall (fun a => a <> "") (activities (run acts mount))
              /\ exists added,
                   activities (run acts mount) = DEFAULT_ACTIVITIES ++ added).
  { induction acts as [|a acts [N [F [added D]]]] using rev_ind.
    - split; [|split].
      + repeat constructor; simpl; intuition discriminate.
      + repeat constructor; discriminate.
      + exists []. reflexivity.
    - rewrite run_snoc.
      destruct (step_activities_fresh (run acts mount) a)
        as [E|[E [K [B _]]]]; rewrite E.
      + split; [exact N|]. split; [exact F|]. now exists added.
      + split; [|split].
        * apply NoDup_app; [exact N | repeat constructor; simpl; tauto|].
          intros s I [<-|[]]. exact (K I).
        * apply Forall_app. split; [exact F|]. now repeat constructor.
        * eexists. rewrite D, <- app_assoc. reflexivity. }
  destruct G as [N [F D]].
  split; [exact N|]. split; [exact F|]. split; [exact D|].
  intros a.
  destruct (step_activities_fresh (run acts mount) a) as [E|[E _]]; rewrite E.
  - exists []. now rewrite app_nil_r.
  - eexists. reflexivity.
Qed.

(** What a call does to the toasts: none, or one more, and one that a
    widget lets through is neither of the two validation errors. *)
Lemma step_toasts (f : Form) (a : Action) :
  toasts (step f a) = toasts f
  \/ exists t, toasts (step f a) = toasts f ++ [t]
               /\ (offered f a = true ->
                   t <> noDataToast /\ t <> selectFirstToast).
Proof.
  destruct a; simpl; try (left; reflexivity).
  - right. unfold addNewActivity.
    destruct (negb (truthy (trim (newActivity f)))).
    { eexists. split; [reflexivity|]. intros _. split; discriminate. }
    destruct (includes (activities f) (toLowerCase (trim (newActivity f)))).
    { eexists. split; [reflexivity|]. intros _. split; discriminate. }
    eexists. split; [reflexivity|]. intros _. split; discriminate.
  - destruct (negb (isCollecting f)); now left.
  - unfold startCollection_call.
    destruct (truthy (selectedActivity f)) eqn:T; simpl; [now left|].
    right. eexists. split; [reflexivity|].
    destruct (isCollecting f); simpl; intros X; discriminate X.
  - right. destruct o; eexists; (split; [reflexivity|]);
      intros _; split; discriminate.
  - right. unfold stopCollection. eexists. split; [reflexivity|].
    intros _. split; discriminate.
  - right. unfold saveData.
    destruct (List.length (chartDataRef f) =? 0) eqn:L.
    + eexists. split; [reflexivity|].
      destruct (isCollecting f); simpl; intros X; discriminate X.
    + eexists. split; [reflexivity|]. intros _. split; discriminate.
  - left. apply handleSensorData_frame.
Qed.

(** What a call made through a widget does to the selection: it keeps
    it, or moves it to a known activity. *)
Lemma step_selection (f : Form) (a : Action) :
  offered f a = true ->
  selectedActivity (step f a) = selectedActivity f
  \/ In (selectedActivity (step f a)) (activities (step f a)).
Proof.
  intros O. destruct a; simpl in *; try (left; reflexivity).
  - destruct (step_activities_fresh f ClickAdd) as [E|[E [_ [_ S]]]].
    + left. simpl in E. unfold addNewActivity in *.
      destruct (negb (truthy (trim (newActivity f)))); [reflexivity|].
      destruct (includes (activities f) (toLowerCase (trim (newActivity f))));
        [reflexivity|].
      simpl in E. exfalso. revert E. generalize (activities f).
      intros l E. apply (f_equal (@List.length string)) in E.
      rewrite length_app in E. simpl in E. lia.
    + right. simpl in E, S. rewrite E, S. apply in_or_app. right. now left.
  - right. apply andb_true_iff in O. destruct O as [_ I].
    apply includes_In in I. exact I.
  - destruct (negb (isCollecting f)); [|now left].
    right. apply includes_In in O. exact O.
  - left. unfold startCollection_call.
    destruct (negb (truthy (selectedActivity f))); reflexivity.
  - left. destruct o; reflexivity.
  - left. unfold saveData.
    destruct (List.length (chartDataRef f) =? 0); reflexivity.
  - left. apply handleSensorData_frame.
Qed.

Lemma offered_run (acts : list Action) (f : Form) :
  offeredAll acts f = true ->
  (~ In noDataToast (toasts f) /\ ~ In selectFirstToast (toasts f))
  /\ (selectedActivity f = "" \/ In (selectedActivity f) (activities f)) ->
  (~ In noDataToast (toasts (run acts f))
   /\ ~ In selectFirstToast (toasts (run acts f)))
  /\ (selectedActivity (run acts f) = ""
      \/ In (selectedActivity (run acts f)) (activities (run acts f))).
Proof.
  revert f. induction acts as [|a acts IH]; intros f O [[N1 N2] K];
    [now repeat split|].
  cbn [offeredAll] in O. apply andb_true_iff in O. destruct O as [O1 O2].
  change (run (a :: acts) f) with (run acts (step f a)).
  apply IH; [exact O2|]. split.
  - destruct (step_toasts f a) as [E|[t [E D]]]; rewrite E; [now split|].
    destruct (D O1) as [D1 D2].
    split; intros I; apply in_app_or in I;
      destruct I as [I|[I|[]]]; auto.
  - destruct (step_selection f a O1) as [E|I]; [|now right].
    rewrite E. destruct K as [K|K]; [now left|]. right.
    destruct (step_activities_fresh f a) as [X|[X _]]; rewrite X;
      [exact K | apply in_or_app; now left].
Qed.

(** X4.  However the user goes through the widgets while samples and
    connection results come in, the two validation errors of the
    handlers are never shown: "Save Data" is disabled whenever
    [saveData] would answer "No Data", the record button whenever
    [startCollection] would answer "Please select an activity first";
    and the selection is always empty or one of the known
    activities. *)
Theorem widgets_prevent_validation_errors (acts : list Action) :
  offeredAll acts mount = true ->
  let f := run acts mount in
  ~ In noDataToast (toasts f)
  /\ ~ In selectFirstToast (toasts f)
  /\ (selectedActivity f = "" \/ In (selectedActivity f) (activities f)).
Proof.
  intros O f.
  destruct (offered_run acts mount O) as [[N1 N2] K].
  - split; [split; intros []|]. now left.
  - split; [exact N1|]. split; [exact N2 | exact K].
Qed.

Lemma widgets_prevent_validation_errors_witness :
  let acts := [ClickBadge "walking"; ClickStart;
               ConnectEnded "walking" Resolved;
               Sample (sampleAt 1500); ClickStop; ClickSave] in
  offeredAll acts mount = true
  /\ ~ In noDataToast (toasts (run acts mount))
  /\ lastToast (run acts mount) = Some (dataSavedToast 1 "walking").
Proof.
  intros acts.
  assert (O : offeredAll acts mount = true) by reflexivity.
  split; [exact O|].
  split; [exact (proj1 (widgets_prevent_validation_errors acts O))|].
  reflexivity.
Defined.

(** X5.  While recording, the select and the plus button are disabled
    and the badges ignore clicks, so that no call offered by a widget
    changes the selected activity, except "Add": with the input open, a
    new valid name typed there is added and selected although recording
    goes on. *)
Theorem selection_while_recording (f : Form) (a : Action) :
  isCollecting f = true ->
  offered f a = true ->
  selectedActivity (step f a) <> selectedActivity f ->
  a = ClickAdd
  /\ isCollecting (step f a) = true
  /\ selectedActivity (step f a) = toLowerCase (trim (newActivity f))
  /\ activities (step f a)
     = activities f ++ [toLowerCase (trim (newActivity f))].
Proof.
  intros C O D.
  destruct a; simpl in *; try (now contradiction D).
  - destruct (step_activities_fresh f ClickAdd) as [E|[E [_ [_ S]]]];
      simpl in E; [|simpl in S].
    + exfalso. apply D. unfold addNewActivity in *.
      destruct (negb (truthy (trim (newActivity f)))); [reflexivity|].
      destruct (includes (activities f) (toLowerCase (trim (newActivity f))));
        [reflexivity|].
      simpl in E. apply (f_equal (@List.length string)) in E.
      rewrite length_app in E. simpl in E. lia.
    + split; [reflexivity|]. split; [|split; assumption].
      unfold addNewActivity.
      destruct (negb (truthy (trim (newActivity f)))); [exact C|].
      destruct (includes (activities f) (toLowerCase (trim (newActivity f))));
        exact C.
  - rewrite C in O. rewrite andb_false_r in O. discriminate O.
  - rewrite C in D. simpl in D. now contradiction D.
  - exfalso. apply D. unfold startCollection_call.
    destruct (negb (truthy (selectedActivity f))); reflexivity.
  - exfalso. apply D. destruct o; reflexivity.
  - exfalso. apply D. unfold saveData.
    destruct (List.length (chartDataRef f) =? 0); reflexivity.
  - exfalso. apply D. apply handleSensorData_frame.
Qed.

Lemma selection_while_recording_witness :
  let f := run [ClickBadge "walking"; ClickPlus; TypeNewActivity " Running";
                ClickStart; ConnectEnded "walking" Resolved] mount in
  (isCollecting f = true /\ offered f ClickAdd = true
   /\ selectedActivity f = "walking")
  /\ selectedActivity (step f ClickAdd) = "running"
  /\ isCollecting (step f ClickAdd) = true.
Proof.
  intros f.
  assert (C : isCollecting f = true) by reflexivity.
  assert (O : offered f ClickAdd = true) by reflexivity.
  assert (D : selectedActivity (step f ClickAdd) <> selectedActivity f)
    by (vm_compute; discriminate).
  pose proof (selection_while_recording f ClickAdd C O D) as H.
  split; [repeat split|].
  split; [exact (proj1 (proj2 (proj2 H))) | exact (proj1 (proj2 H))].
Defined.

End Rendering.

(** ** The service: the stream of the generator *)

Section Stream.

Import MQTTService.

Context {E : Engine}.

Lemma filter_none {A} (f : A -> bool) (l : list A) :
  Forall (fun a => f a = false) l -> filter f l = [].
Proof.
  induction 1 as [|a l H _ IH]; simpl; [reflexivity|]. now rewrite H.
Qed.

Lemma filter_all {A} (f : A -> bool) (l : list A) :
  Forall (fun a => f a = true) l -> filter f l = l.
Proof.
  induction 1 as [|a l H _ IH]; simpl; [reflexivity|]. now rewrite H, IH.
Qed.

Lemma atTime_now (w : World) : atTime (now w) w = w.
Proof. destruct w; reflexivity. Qed.

(** While no timer is due, time only moves the clock. *)
Lemma tick_idle (w : World) :
  Forall (fun t => (now w + 1 < due t)%Z) (timers w) ->
  tick w = atTime (now w + 1) w.
Proof.
  intros H. unfold tick, advance.
  rewrite filter_none, filter_all; [reflexivity| |].
  - eapply Forall_impl; [|exact H]. intros t L. simpl in L.
    apply negb_true_iff, Z.leb_gt. exact L.
  - eapply Forall_impl; [|exact H]. intros t L. simpl in L.
    apply Z.leb_gt. exact L.
Qed.

Lemma elapse_idle (n : nat) (w : World) :
  Forall (fun t => (now w + Z.of_nat n < due t)%Z) (timers w) ->
  elapse n w = atTime (now w + Z.of_nat n) w.
Proof.
  revert w. induction n as [|n IH]; intros w H.
  - cbn [elapse]. rewrite Z.add_0_r. symmetry. apply atTime_now.
  - cbn [elapse]. rewrite tick_idle.
    + rewrite IH.
      * unfold atTime. cbn [now this timers promises delivered console draws].
        f_equal. lia.
      * unfold atTime. cbn [now timers].
        eapply Forall_impl; [|exact H]. intros t L. simpl in L. lia.
    + eapply Forall_impl; [|exact H]. intros t L. simpl in L. lia.
Qed.

(** The one timer of the queue is due. *)
Lemma tick_one (w : World) (t : Timer) :
  timers w = [t] -> due t = (now w + 1)%Z ->
  tick w
  = exec (fire t)
      {| this := this w; now := now w + 1; timers := [];
         promises := promises w; delivered := delivered w;
         console := console w; draws := draws w |}.
Proof.
  intros T D. unfold tick, advance. rewrite T. cbn [filter].
  rewrite D, Z.leb_refl. reflexivity.
Qed.

Lemma samplesOf_S (cb : Callback) (t0 : Z) (k : nat) :
  samplesOf cb t0 (S k)
  = samplesOf cb t0 k
    ++ [(cb, mockData (6 * k) (t0 + 1500 + 1000 * Z.of_nat k))].
Proof. unfold samplesOf. now rewrite seq_S, map_app. Qed.

(** A fresh configured service on which [connect] has just been
    called. *)
Lemma connect_on_fresh (t0 : Z) (cfg : MQTTConfig) (cb : Callback) :
  run [Configure cfg; Connect cb] (boot t0)
  = {| this := {| client := Some MockClient; onMessageCallback := Some cb;
                  config := Some cfg; isConnected := false |};
       now := t0;
       timers := [{| due := t0 + 500; task := ConnectTimeout 0 |}];
       promises := [None];
       delivered := [];
       console := [("Connecting to MQTT broker: " ++ brokerUrl cfg)%string];
       draws := 0 |}.
Proof. reflexivity. Qed.

(** Half a second after [connect] on a fresh configured service. *)
Lemma connected_after_500 (t0 : Z) (cfg : MQTTConfig) (cb : Callback) :
  elapse 500 (run [Configure cfg; Connect cb] (boot t0))
  = streaming cfg cb t0 0 (t0 + 500).
Proof.
  rewrite connect_on_fresh.
  change 500 with (499 + 1). rewrite (elapse_plus 499 1).
  rewrite (elapse_idle 499);
    [|constructor; [cbn [now due]; lia | constructor]].
  change (elapse 1 ?w) with (tick w).
  rewrite (tick_one _ {| due := t0 + 500; task := ConnectTimeout 0 |});
    [|reflexivity | cbn [now due atTime]; lia].
  unfold streaming, samplesOf, exec, fire, connectTimeout, onConnect,
    startMockDataGeneration, bind. simpl.
  replace (t0 + 499 + 1)%Z with (t0 + 500)%Z by lia. reflexivity.
Qed.

(** What the interval does on a connected service with an observer. *)
Lemma fire_interval_on (t : Timer) (v : World) (cb : Callback) :
  task t = MockInterval ->
  isConnected (this v) = true ->
  onMessageCallback (this v) = Some cb ->
  exec (fire t) v
  = {| this := this v; now := now v;
       timers := timers v ++ [{| due := now v + 1000; task := MockInterval |}];
       promises := promises v;
       delivered := delivered v ++ [(cb, mockData (draws v) (now v))];
       console := console v;
       draws := 6 + draws v |}.
Proof.
  intros T I C.
  unfold fire, exec, mockInterval, randomValue, bind.
  rewrite T. simpl. rewrite I, C. reflexivity.
Qed.

(** One second of streaming. *)
Lemma streaming_second (cfg : MQTTConfig) (cb : Callback) (t0 : Z) (k : nat) :
  elapse 1000 (streaming cfg cb t0 k (t0 + 500 + 1000 * Z.of_nat k))
  = streaming cfg cb t0 (S k) (t0 + 500 + 1000 * Z.of_nat (S k)).
Proof.
  change 1000 with (999 + 1). rewrite (elapse_plus 999 1).
  rewrite (elapse_idle 999);
    [|constructor; [cbn [now due streaming]; lia | constructor]].
  change (elapse 1 ?w) with (tick w).
  rewrite (tick_one _ {| due := t0 + 500 + 1000 * (Z.of_nat k + 1);
                         task := MockInterval |});
    [|reflexivity | cbn [now due atTime streaming]; lia].
  rewrite (fire_interval_on _ _ cb); [|reflexivity..].
  unfold streaming.
  cbn [this now timers promises delivered console draws atTime app].
  rewrite samplesOf_S.
  replace (t0 + 500 + 1000 * Z.of_nat k + Z.of_nat 999 + 1)%Z
    with (t0 + 1500 + 1000 * Z.of_nat k)%Z by lia.
  replace (t0 + 1500 + 1000 * Z.of_nat k + 1000)%Z
    with (t0 + 500 + 1000 * (Z.of_nat (S k) + 1))%Z by lia.
  replace (t0 + 500 + 1000 * Z.of_nat (S k))%Z
    with (t0 + 1500 + 1000 * Z.of_nat k)%Z by lia.
  replace (6 + 6 * k) with (6 * S k) by lia.
  reflexivity.
Qed.

Lemma streaming_seconds (cfg : MQTTConfig) (cb : Callback) (t0 : Z) (k : nat) :
  elapse (1000 * k) (streaming cfg cb t0 0 (t0 + 500))
  = streaming cfg cb t0 k (t0 + 500 + 1000 * Z.of_nat k).
Proof.
  induction k as [|k IH].
  - rewrite Nat.mul_0_r. cbn [elapse]. f_equal. lia.
  - rewrite Nat.mul_succ_r, elapse_plus, IH. apply streaming_second.
Qed.

Lemma streaming_idle (cfg : MQTTConfig) (cb : Callback) (t0 : Z) (k r : nat) :
  r < 1000 ->
  elapse r (streaming cfg cb t0 k (t0 + 500 + 1000 * Z.of_nat k))
  = streaming cfg cb t0 k (t0 + 500 + 1000 * Z.of_nat k + Z.of_nat r).
Proof.
  intros R. rewrite elapse_idle; [reflexivity|].
  constructor; [cbn [now due streaming]; lia | constructor].
Qed.

(** X6.  On a fresh page let the service be configured and
    [connect(cb)] be called at time [t0].  For the first 499 ms nothing
    happens but the clock: the promise is pending and the service not
    connected.  From 500 ms on the promise is resolved and the service
    connected, and the generator hands [cb] exactly one sample per
    second, the first at 1500 ms: after [500 + 1000 k + r] ms with
    [r < 1000] the observer has received exactly [k] samples, sample
    [i] stamped [t0 + 1500 + 1000 i] and built from draws [6 i] to
    [6 i + 5], and one interval is armed, for the next second. *)
Theorem generator_cadence
    (t0 : Z) (cfg : MQTTConfig) (cb : Callback) (n k r : nat) :
  let w := run [Configure cfg; Connect cb] (boot t0) in
  (n < 500 -> elapse n w = atTime (t0 + Z.of_nat n) w)
  /\ promise 0 w = Some None
  /\ isConnected (this w) = false
  /\ (r < 1000 ->
      elapse (500 + 1000 * k + r) w
      = streaming cfg cb t0 k (t0 + 500 + 1000 * Z.of_nat k + Z.of_nat r))
  /\ List.length (samplesOf cb t0 k) = k.
Proof.
  intros w. split; [|split; [|split; [|split]]].
  - intros N. subst w. rewrite connect_on_fresh.
    rewrite elapse_idle; [reflexivity|].
    constructor; [cbn [now due]; lia | constructor].
  - reflexivity.
  - reflexivity.
  - intros R. subst w.
    rewrite !elapse_plus, connected_after_500, streaming_seconds.
    apply streaming_idle, R.
  - unfold samplesOf. now rewrite length_map, length_seq.
Qed.

End Stream.

(** ** services/mqttService.ts: how the helpers use their client *)

Section Helpers.

Import mqttService.

Lemma run_snoc_call (calls : list Call) (c : Call) (s : State) :
  run (calls ++ [c]) s = perform (run calls s) c.
Proof. unfold run. now rewrite fold_left_app. Qed.

Lemma run_app_calls (calls calls' : list Call) (s : State) :
  run (calls ++ calls') s = run calls' (run calls s).
Proof. apply fold_left_app. Qed.

(** A list that ends with [r], cut at one of its elements. *)
Lemma snoc_cut {A} (l pre post : list A) (r r' : A) :
  l ++ [r] = pre ++ r' :: post ->
  (pre = l /\ r' = r /\ post = [])
  \/ exists post', post = post' ++ [r] /\ l = pre ++ r' :: post'.
Proof.
  destruct (exists_last (l := r' :: post)) as [post' [r'' X]]; [discriminate|].
  intros H. rewrite X, app_assoc in H. apply app_inj_tail in H.
  destruct H as [H ->].
  destruct post' as [|a post'].
  - left. simpl in X. injection X as -> ->. rewrite app_nil_r in H. auto.
  - right. simpl in X. injection X as -> ->. exists post'. auto.
Qed.

Lemma named_below_snoc (l : list Request) (r : Request) :
  Forall (fun q => named q < List.length l) l ->
  named r <= List.length l ->
  Forall (fun q => named q < List.length (l ++ [r])) (l ++ [r]).
Proof.
  intros H R. rewrite length_app. simpl.
  apply Forall_app. split.
  - eapply Forall_impl; [|exact H]. intros q Q. simpl in Q. lia.
  - constructor; [lia | constructor].
Qed.

Lemma created_below (c : nat) (l : list Request) :
  Forall (fun q => named q < List.length l) l ->
  created c l -> c < List.length l.
Proof.
  intros H C. unfold created in C.
  rewrite Forall_forall in H. exact (H _ C).
Qed.

Lemma ended_below (c : nat) (l : list Request) :
  Forall (fun q => named q < List.length l) l ->
  ended c l -> c < List.length l.
Proof.
  intros H C. unfold ended in C.
  rewrite Forall_forall in H. exact (H _ C).
Qed.

(** A request on the client in hand that does not end it. *)
Lemma disciplined_request (s : State) (r : Request) (c : nat) :
  disciplined s -> client s = Some c -> onClient r = Some c ->
  r <> ClientEnd c ->
  disciplined (request r s).
Proof.
  intros [B [H W]] C O N.
  destruct (H c C) as [Cr En].
  assert (Nm : named r = c) by (destruct r; simpl in *; congruence).
  split; [|split].
  - cbn [request requests]. apply named_below_snoc; [exact B|].
    rewrite Nm. apply Nat.lt_le_incl, created_below; assumption.
  - cbn [request requests client]. intros d D.
    destruct (H d D) as [Cr' En']. split.
    + apply in_or_app. now left.
    + intros X. apply in_app_or in X. destruct X as [X|[X|[]]]; [tauto|].
      rewrite C in D. injection D as <-. congruence.
  - cbn [request requests]. intros pre r' post d X O'.
    apply snoc_cut in X. destruct X as [[-> [-> _]]|[post' [_ X]]].
    + rewrite O in O'. injection O' as <-. now split.
    + exact (W pre r' post' d X O').
Qed.

Lemma disciplined_log (s : State) (line : string) :
  disciplined s -> disciplined (log line s).
Proof. intros H. exact H. Qed.

Lemma perform_disciplined (s : State) (c : Call) :
  disciplined s -> disciplined (perform s c).
Proof.
  intros D. destruct c as [|t|t|t m|]; simpl.
  - (* connectMqtt *)
    destruct D as [B [H W]].
    unfold connectMqtt. split; [|split].
    + cbn [set_client request requests]. apply named_below_snoc; [exact B|].
      simpl. lia.
    + cbn [set_client request requests client]. intros d X.
      injection X as <-. split.
      * apply in_or_app. right. now left.
      * intros X. apply in_app_or in X. destruct X as [X|[X|[]]].
        -- apply (ended_below _ _ B) in X. lia.
        -- discriminate X.
    + cbn [set_client request requests]. intros pre r post d X O.
      apply snoc_cut in X. destruct X as [[-> [-> _]]|[post' [_ X]]].
      * discriminate O.
      * exact (W pre r post' d X O).
  - (* subscribeTopic *)
    unfold subscribeTopic. destruct (client s) as [d|] eqn:C;
      [|apply disciplined_log, D].
    apply (disciplined_request _ _ d); [| exact C | reflexivity | discriminate].
    apply (disciplined_request _ _ d);
      [exact D | exact C | reflexivity | discriminate].
  - unfold unsubscribeTopic. destruct (client s) as [d|] eqn:C;
      [|apply disciplined_log, D].
    apply (disciplined_request _ _ d);
      [exact D | exact C | reflexivity | discriminate].
  - unfold publishMessage. destruct (client s) as [d|] eqn:C;
      [|apply disciplined_log, D].
    apply (disciplined_request _ _ d);
      [exact D | exact C | reflexivity | discriminate].
  - (* disconnectMqtt *)
    unfold disconnectMqtt. destruct (client s) as [d|] eqn:C;
      [|apply disciplined_log, D].
    apply disciplined_log.
    destruct D as [B [H W]]. destruct (H d C) as [Cr En].
    split; [|split].
    + cbn [set_client request requests]. apply named_below_snoc; [exact B|].
      simpl. apply Nat.lt_le_incl, created_below; assumption.
    + cbn [set_client client]. discriminate.
    + cbn [set_client request requests]. intros pre r post e X O.
      apply snoc_cut in X. destruct X as [[-> [-> _]]|[post' [_ X]]].
      * simpl in O. injection O as <-. now split.
      * exact (W pre r post' e X O).
Qed.

Lemma run_disciplined (calls : list Call) (s : State) :
  disciplined s -> disciplined (run calls s).
Proof.
  revert s. induction calls as [|c calls IH]; intros s D; [exact D|].
  apply IH, perform_disciplined, D.
Qed.

Lemma load_disciplined : disciplined load.
Proof.
  split; [constructor|]. split.
  - intros c X. discriminate X.
  - intros pre r post c X. destruct pre; discriminate X.
Qed.

(** X7.  However the helpers of services/mqttService.ts are called
    after the module is loaded, every request they make on a client
    (subscribe, on('message'), unsubscribe, publish, end) is made on a
    client that [mqtt.connect] had returned before and on which [end]
    had not been called before; so no client is used after its end and
    none is ended twice.  The client the module holds, if any, has been
    made and has not been ended. *)
Theorem helpers_use_live_clients (calls : list Call) :
  let s := run calls load in
  (forall pre r post c,
      requests s = pre ++ r :: post -> onClient r = Some c ->
      created c pre /\ ~ ended c pre)
  /\ (forall c, client s = Some c ->
        created c (requests s) /\ ~ ended c (requests s)).
Proof.
  intros s. destruct (run_disciplined calls load load_disciplined)
    as [_ [H W]].
  split; assumption.
Qed.

(** Without a client the helpers only write to the console. *)
Lemma perform_without_client (s : State) (c : Call) :
  client s = None -> c <> ConnectMqtt ->
  client (perform s c) = None
  /\ requests (perform s c) = requests s
  /\ List.length (console (perform s c)) = S (List.length (console s)).
Proof.
  intros C N.
  destruct c; [congruence| | | |]; simpl;
    unfold subscribeTopic, unsubscribeTopic, publishMessage, disconnectMqtt;
    rewrite C; cbn [log client requests console];
    rewrite length_app; simpl; repeat split; try assumption; lia.
Qed.

(** X8.  While the module holds no client (before the first
    [connectMqtt], or after [disconnectMqtt]) the other helpers do
    nothing but report on the console: whatever is subscribed,
    unsubscribed, published or disconnected, no request reaches the
    mqtt library (a message published then is dropped, not queued),
    the module still holds no client, and each call leaves one line on
    the console. *)
Theorem helpers_without_client (s : State) (calls : list Call) :
  client s = None ->
  ~ In ConnectMqtt calls ->
  requests (run calls s) = requests s
  /\ client (run calls s) = None
  /\ List.length (console (run calls s))
     = List.length (console s) + List.length calls.
Proof.
  revert s. induction calls as [|c calls IH]; intros s C N.
  - simpl. repeat split; [exact C | lia].
  - destruct (perform_without_client s c C) as [C' [R' L']].
    { intros ->. apply N. now left. }
    destruct (IH (perform s c) C') as [R [C'' L]].
    { intros X. apply N. now right. }
    simpl. rewrite R, R', L, L'. repeat split; [exact C'' | lia].
Qed.

Lemma helpers_without_client_witness :
  let s := run [ConnectMqtt; DisconnectMqtt] load in
  let calls := [PublishMessage "esp32/sensor_data" "on";
                SubscribeTopic "esp32/sensor_data"; DisconnectMqtt] in
  requests (run calls s) = requests s
  /\ client (run calls s) = None
  /\ List.length (console (run calls s)) = List.length (console s) + 3.
Proof.
  apply (helpers_without_client
           (run [ConnectMqtt; DisconnectMqtt] load)
           [PublishMessage "esp32/sensor_data" "on";
            SubscribeTopic "esp32/sensor_data"; DisconnectMqtt]).
  - reflexivity.
  - intros [X|[X|[X|[]]]]; discriminate X.
Defined.

(** After a second [connectMqtt], the client in hand before it. *)
Lemma perform_orphan (s : State) (c : nat) (call : Call) :
  Forall (fun r => named r < List.length (requests s)) (requests s) ->
  c < List.length (requests s) ->
  client s <> Some c ->
  c < List.length (requests (perform s call))
  /\ client (perform s call) <> Some c
  /\ exists l, requests (perform s call) = requests s ++ l
               /\ Forall (fun r => onClient r <> Some c) l.
Proof.
  intros B L N.
  destruct call as [|t|t|t m|]; simpl;
    unfold connectMqtt, subscribeTopic, unsubscribeTopic, publishMessage,
      disconnectMqtt.
  - cbn [set_client request requests client]. rewrite length_app. simpl.
    split; [lia|]. split; [intros X; injection X as X; lia|].
    eexists. split; [reflexivity|]. constructor; [discriminate|constructor].
  - destruct (client s) as [d|] eqn:C.
    + cbn [request requests client]. rewrite !length_app. simpl.
      split; [lia|]. split; [congruence|].
      exists [ClientSubscribe d t; ClientOnMessage d t].
      split; [now rewrite <- app_assoc|].
      repeat constructor; simpl; congruence.
    + cbn [log requests client]. split; [exact L|]. split; [congruence|].
      exists []. split; [now rewrite app_nil_r | constructor].
  - destruct (client s) as [d|] eqn:C.
    + cbn [request requests client]. rewrite !length_app. simpl.
      split; [lia|]. split; [congruence|].
      eexists. split; [reflexivity|].
      repeat constructor; simpl; congruence.
    + cbn [log requests client]. split; [exact L|]. split; [congruence|].
      exists []. split; [now rewrite app_nil_r | constructor].
  - destruct (client s) as [d|] eqn:C.
    + cbn [request requests client]. rewrite !length_app. simpl.
      split; [lia|]. split; [congruence|].
      eexists. split; [reflexivity|].
      repeat constructor; simpl; congruence.
    + cbn [log requests client]. split; [exact L|]. split; [congruence|].
      exists []. split; [now rewrite app_nil_r | constructor].
  - destruct (client s) as [d|] eqn:C.
    + cbn [log set_client request requests client]. rewrite !length_app. simpl.
      split; [lia|]. split; [discriminate|].
      eexists. split; [reflexivity|].
      repeat constructor; simpl; congruence.
    + cbn [log requests client]. split; [exact L|]. split; [congruence|].
      exists []. split; [now rewrite app_nil_r | constructor].
Qed.

Lemma run_orphan (calls : list Call) (s : State) (c : nat) :
  disciplined s ->
  c < List.length (requests s) ->
  client s <> Some c ->
  exists l, requests (run calls s) = requests s ++ l
            /\ Forall (fun r => onClient r <> Some c) l.
Proof.
  revert s. induction calls as [|call calls IH]; intros s D L N.
  - exists []. split; [now rewrite app_nil_r | constructor].
  - destruct (perform_orphan s c call (proj1 D) L N) as [L' [N' [l1 [R1 F1]]]].
    destruct (IH (perform s call) (perform_disciplined s call D) L' N')
      as [l2 [R2 F2]].
    exists (l1 ++ l2). simpl. rewrite R2, R1, <- app_assoc.
    split; [reflexivity|]. apply Forall_app. now split.
Qed.

(** X9.  [connectMqtt] does not end the client the module holds: it
    overwrites the variable.  If the module holds client [c] when
    [connectMqtt] is called again, then whatever is called afterwards
    no request is ever made on [c] again; in particular [end] is never
    called on it, and the connection it stands for stays open. *)
Theorem reconnect_orphans_client (calls calls' : list Call) (c : nat) :
  client (run calls load) = Some c ->
  let s := run calls load in
  let s' := run (calls ++ ConnectMqtt :: calls') load in
  ~ ended c (requests s')
  /\ exists l,
       requests s'
       = requests s ++ MqttConnect MQTT_SERVER (List.length (requests s)) :: l
       /\ Forall (fun r => onClient r <> Some c) l.
Proof.
  intros C s s'. subst s s'.
  pose proof (run_disciplined calls load load_disciplined) as D.
  set (s := run calls load) in *.
  destruct D as [B [H W]]. destruct (H c C) as [Cr En].
  pose proof (created_below c _ B Cr) as L.
  rewrite run_app_calls. fold s. cbn [run fold_left perform].
  change (fold_left perform calls' (connectMqtt s))
    with (run calls' (connectMqtt s)).
  destruct (run_orphan calls' (connectMqtt s) c) as [l [R F]].
  - apply (perform_disciplined s ConnectMqtt). now split.
  - unfold connectMqtt. cbn [set_client request requests].
    rewrite length_app. simpl. lia.
  - unfold connectMqtt. cbn [set_client client]. intros X.
    injection X as X. lia.
  - assert (R' : requests (run calls' (connectMqtt s))
                 = requests s
                   ++ MqttConnect MQTT_SERVER (List.length (requests s)) :: l).
    { rewrite R. unfold connectMqtt. cbn [set_client request requests].
      now rewrite <- app_assoc. }
    split; [|exists l; now split].
    rewrite R'. intros X. apply in_app_or in X.
    destruct X as [X|[X|X]]; [tauto | discriminate X |].
    rewrite Forall_forall in F. exact (F _ X eq_refl).
Qed.

Lemma reconnect_orphans_client_witness :
  let s := run [ConnectMqtt] load in
  let s' := run ([ConnectMqtt] ++ ConnectMqtt :: [DisconnectMqtt]) load in
  ~ ended 0 (requests s')
  /\ exists l,
       requests s'
       = requests s ++ MqttConnect MQTT_SERVER (List.length (requests s)) :: l
       /\ Forall (fun r => onClient r <> Some 0) l.
Proof.
  apply (reconnect_orphans_client [ConnectMqtt] [DisconnectMqtt] 0).
  reflexivity.
Defined.

End Helpers.

(** ** The service: observers and the order of the samples *)

Section Observers.

Import MQTTService.

Context {E : Engine}.

Lemma run_inv (P : World -> Prop) :
  (forall w c, P w -> P (perform w c)) ->
  forall calls w, P w -> P (run calls w).
Proof.
  intros H calls. induction calls as [|c l IH]; intros w W; [exact W|].
  apply IH, H, W.
Qed.

Lemma connect_now (cb : Callback) (w : World) :
  now (exec (connect cb) w) = now w.
Proof.
  unfold exec. destruct (config (this w)) as [cfg|] eqn:C.
  - now rewrite (connect_configured cb cfg w C).
  - now rewrite (connect_unconfigured cb w C).
Qed.

Lemma disconnect_now (w : World) : now (exec disconnect w) = now w.
Proof.
  unfold exec. destruct (client (this w)) as [[]|] eqn:C.
  - destruct (isConnected (this w)) eqn:I.
    + now rewrite (disconnect_connected w C I).
    + now rewrite (disconnect_idle w (or_intror I)).
  - now rewrite (disconnect_idle w (or_introl C)).
Qed.

(** X12.  [connect(cb)] on a configured service replaces the observer
    at once: whatever was registered before, and whichever generators
    earlier calls of [connect] have started or will start, every
    sample handed out after the call is handed to [cb], for as long as
    the page only waits. *)
Theorem connect_replaces_observer (w : World) (cb : Callback) (n : nat) :
  config (this w) <> None ->
  exists l,
    delivered (elapse n (exec (connect cb) w)) = delivered w ++ l
    /\ Forall (fun cd => fst cd = cb) l.
Proof.
  intros C. destruct (config (this w)) as [cfg|] eqn:Cfg; [|congruence].
  assert (G : onMessageCallback (this (elapse n (exec (connect cb) w)))
              = Some cb
              /\ exists l,
                   delivered (elapse n (exec (connect cb) w))
                   = delivered w ++ l
                   /\ Forall (fun cd => fst cd = cb) l).
  { apply (elapse_inv
             (fun v => onMessageCallback (this v) = Some cb
                       /\ exists l, delivered v = delivered w ++ l
                                    /\ Forall (fun cd => fst cd = cb) l)).
    - intros k v [O [l [D F]]].
      destruct (fire_config k v) as [_ [_ O']].
      split; [congruence|].
      destruct (fire_delivered k v) as [X|[c [_ [_ [Oc X]]]]]; rewrite X, D.
      + now exists l.
      + exists (l ++ [(c, mockData (draws v) (now v))]).
        split; [now rewrite <- app_assoc|].
        apply Forall_app. split; [exact F|].
        constructor; [simpl; congruence | constructor].
    - intros v H. exact H.
    - unfold exec. rewrite (connect_configured cb cfg w Cfg). simpl.
      split; [reflexivity|]. exists []. split; [now rewrite app_nil_r|].
      constructor. }
  exact (proj2 G).
Qed.

Lemma StronglySorted_snoc (l : list Z) (t : Z) :
  StronglySorted Z.le l -> Forall (fun u => (u <= t)%Z) l ->
  StronglySorted Z.le (l ++ [t]).
Proof.
  induction 1 as [|u l S IH F]; intros B; simpl.
  - repeat constructor.
  - inversion B; subst. constructor; [now apply IH|].
    apply Forall_app. split; [exact F|]. now constructor.
Qed.

Lemma fire_inOrder (k : Timer) (v : World) : inOrder v -> inOrder (exec (fire k) v).
Proof.
  intros [S B]. unfold inOrder, stamps in *. rewrite fire_now.
  destruct (fire_delivered k v) as [X|[c [_ [_ [_ X]]]]]; rewrite X;
    [now split|].
  rewrite map_app. simpl. split.
  - now apply StronglySorted_snoc.
  - apply Forall_app. split; [exact B|]. constructor; [lia|constructor].
Qed.

Lemma perform_inOrder (w : World) (c : Call) : inOrder w -> inOrder (perform w c).
Proof.
  intros H. destruct c as [cfg|cb| |ms]; simpl.
  - exact H.
  - unfold inOrder, stamps. now rewrite connect_delivered, connect_now.
  - unfold inOrder, stamps. now rewrite disconnect_delivered, disconnect_now.
  - apply elapse_inv; [exact fire_inOrder | | exact H].
    intros u [S B]. split; [exact S|].
    unfold stamps, advance in *. simpl.
    eapply Forall_impl; [|exact B]. intros t T. simpl in T. lia.
Qed.

(** X13.  Whatever the page does with a freshly built service, the
    samples reach the observers in time order (each stamped no earlier
    than the one before it), and none is stamped later than the clock
    reads. *)
Theorem samples_in_time_order (t0 : Z) (calls : list Call) :
  let w := run calls (boot t0) in
  StronglySorted Z.le (stamps w)
  /\ Forall (fun t => (t <= now w)%Z) (stamps w).
Proof.
  intros w.
  apply (run_inv inOrder); [exact perform_inOrder|]. split; constructor.
Qed.





(** *** Reconnecting while an interval is armed *)

Lemma leb_false (a b : Z) : (b < a)%Z -> (a <=? b)%Z = false.
Proof. apply Z.leb_gt. Qed.

Lemma leb_true (a b : Z) : (a <= b)%Z -> (a <=? b)%Z = true.
Proof. apply Z.leb_le. Qed.

(** What the connection timer does on a configured service that
    holds a client and an observer. *)
Lemma fire_connect_on (t : Timer) (v : World) (p : nat) (cfg : MQTTConfig)
    (cb : Callback) :
  task t = ConnectTimeout p ->
  config (this v) = Some cfg ->
  client (this v) = Some MockClient ->
  onMessageCallback (this v) = Some cb ->
  exec (fire t) v
  = {| this := {| client := Some MockClient; onMessageCallback := Some cb;
                  config := Some cfg; isConnected := true |};
       now := now v;
       timers := timers v ++ [{| due := now v + 1000; task := MockInterval |}];
       promises := settleAt p Resolved (promises v);
       delivered := delivered v;
       console := console v
                  ++ ["Connected to MQTT broker";
                      ("Subscribed to topic: " ++ topic cfg)%string;
                      ("Subscribed to topic: " ++ topic cfg)%string];
       draws := draws v |}.
Proof.
  intros T C M O.
  unfold fire, exec, connectTimeout, onConnect, startMockDataGeneration, bind.
  rewrite T. simpl. rewrite C, M. simpl. rewrite O. simpl.
  rewrite ?C, ?M, ?O, <- ?app_assoc. reflexivity.
Qed.

(** Of the two timers of the queue the first is due. *)
Lemma tick_first_of_two (w : World) (a b : Timer) :
  timers w = [a; b] -> due a = (now w + 1)%Z -> (now w + 1 < due b)%Z ->
  tick w
  = exec (fire a)
      {| this := this w; now := now w + 1; timers := [b];
         promises := promises w; delivered := delivered w;
         console := console w; draws := draws w |}.
Proof.
  intros T A B. unfold tick, advance. rewrite T. cbn [filter].
  rewrite A, Z.leb_refl, (leb_false _ _ B). reflexivity.
Qed.

(** Of the two timers of the queue the second is due. *)
Lemma tick_second_of_two (w : World) (a b : Timer) :
  timers w = [a; b] -> (now w + 1 < due a)%Z -> due b = (now w + 1)%Z ->
  tick w
  = exec (fire b)
      {| this := this w; now := now w + 1; timers := [a];
         promises := promises w; delivered := delivered w;
         console := console w; draws := draws w |}.
Proof.
  intros T A B. unfold tick, advance. rewrite T. cbn [filter].
  rewrite B, Z.leb_refl, (leb_false _ _ A). reflexivity.
Qed.

(** Both timers of the queue are due later. *)
Ltac not_due :=
  repeat first [ apply Forall_nil
               | apply Forall_cons; [cbn [now due atTime]; lia|] ].

(** X16.  [disconnect] does not clear the interval of the generator
    and [connect] starts another one.  Let a page record [k] samples,
    and let it stop and start again at once, [r < 500] ms after a
    sample was due: the connection is back before the old interval
    fires, so the old interval finds the service connected, hands its
    sample to the new observer and stays armed next to the new one.
    Within 1500 ms of the reconnection the new observer has received
    two samples, not one, and two intervals are armed, each due one
    second after the sample it delivered. *)
Theorem quick_reconnect_doubles
    (t0 : Z) (cfg : MQTTConfig) (cb cb' : Callback) (k r : nat) :
  r < 500 ->
  let t := (t0 + 500 + 1000 * Z.of_nat k + Z.of_nat r)%Z in
  let w := run [Configure cfg; Connect cb; Wait (500 + 1000 * k + r);
                Disconnect; Connect cb'; Wait 1500] (boot t0) in
  delivered w
  = samplesOf cb t0 k
    ++ [(cb', mockData (6 * k) (t + 1000 - Z.of_nat r));
        (cb', mockData (6 + 6 * k) (t + 1500))]
  /\ timers w
     = [{| due := t + 2000 - Z.of_nat r; task := MockInterval |};
        {| due := t + 2500; task := MockInterval |}]
  /\ now w = (t + 1500)%Z.
Proof.
  intros R t w. subst w.
  change (run [Configure cfg; Connect cb; Wait (500 + 1000 * k + r);
               Disconnect; Connect cb'; Wait 1500] (boot t0))
    with (elapse 1500
            (exec (connect cb')
               (exec disconnect
                  (elapse (500 + 1000 * k + r)
                     (run [Configure cfg; Connect cb] (boot t0)))))).
  rewrite !elapse_plus, connected_after_500, streaming_seconds,
    (streaming_idle cfg cb t0 k r) by lia.
  fold t.
  unfold exec. rewrite disconnect_connected; [|reflexivity..].
  rewrite (connect_configured cb' cfg); [|reflexivity].
  cbn [snd streaming this now timers promises delivered console draws
       config isConnected app List.length settleAt].
  replace (t0 + 500 + 1000 * (Z.of_nat k + 1))%Z
    with (t + 1000 - Z.of_nat r)%Z by (subst t; lia).
  clearbody t.
  replace 1500 with (499 + (1 + ((499 - r) + (1 + ((499 + r) + 1))))) by lia.
  (* the connection timer *)
  rewrite (elapse_plus 499), (elapse_idle 499); [|not_due].
  rewrite (elapse_plus 1). change (elapse 1 ?v) with (tick v).
  rewrite (tick_second_of_two _
             {| due := t + 1000 - Z.of_nat r; task := MockInterval |}
             {| due := t + 500; task := ConnectTimeout 2 |});
    [|reflexivity | cbn [now due atTime]; lia | cbn [now due atTime]; lia].
  rewrite (fire_connect_on _ _ 2 cfg cb'); [|reflexivity..].
  cbn [atTime this now timers promises delivered console draws app settleAt].
  (* the interval armed before the reconnection *)
  rewrite (elapse_plus (499 - r)), (elapse_idle (499 - r)); [|not_due].
  rewrite (elapse_plus 1). change (elapse 1 ?v) with (tick v).
  rewrite (tick_first_of_two _
             {| due := t + 1000 - Z.of_nat r; task := MockInterval |}
             {| due := t + Z.of_nat 499 + 1 + 1000; task := MockInterval |});
    [|reflexivity | cbn [now due atTime]; lia | cbn [now due atTime]; lia].
  rewrite (fire_interval_on _ _ cb'); [|reflexivity..].
  cbn [atTime this now timers promises delivered console draws app].
  (* the interval armed by the reconnection *)
  rewrite (elapse_plus (499 + r)), (elapse_idle (499 + r)); [|not_due].
  change (elapse 1 ?v) with (tick v).
  rewrite (tick_first_of_two _
             {| due := t + Z.of_nat 499 + 1 + 1000; task := MockInterval |}
             {| due := t + Z.of_nat 499 + 1 + Z.of_nat (499 - r) + 1 + 1000;
                task := MockInterval |});
    [|reflexivity | cbn [now due atTime]; lia | cbn [now due atTime]; lia].
  rewrite (fire_interval_on _ _ cb'); [|reflexivity..].
  cbn [atTime this now timers promises delivered console draws app].
  replace (t + Z.of_nat 499 + 1 + Z.of_nat (499 - r) + 1 + Z.of_nat (499 + r)
           + 1)%Z with (t + 1500)%Z by lia.
  replace (t + Z.of_nat 499 + 1 + Z.of_nat (499 - r) + 1)%Z
    with (t + 1000 - Z.of_nat r)%Z by lia.
  replace (t + Z.of_nat 499 + 1 + 1000)%Z with (t + 1500)%Z by lia.
  replace (t + 1000 - Z.of_nat r + 1000)%Z
    with (t + 2000 - Z.of_nat r)%Z by lia.
  replace (t + 1500 + 1000)%Z with (t + 2500)%Z by lia.
  split; [|split; reflexivity].
  now rewrite <- app_assoc.
Qed.

End Observers.

(** ** The page: recording from the generator *)

Section Session.

Import JS DataCollectionForm MQTTService.

Context {E : Engine}.

Lemma advance_idle (w : World) :
  Forall (fun t => (now w + 1 < due t)%Z) (timers w) ->
  advance w = atTime (now w + 1) w.
Proof.
  intros H. unfold advance, atTime. rewrite filter_all; [reflexivity|].
  eapply Forall_impl; [|exact H]. intros t L. simpl in L.
  apply negb_true_iff, Z.leb_gt. exact L.
Qed.

Lemma page_tick_idle (pg : Page.Page) :
  Forall (fun t => (now (Page.world pg) + 1 < due t)%Z)
         (timers (Page.world pg)) ->
  Page.tick pg
  = {| Page.form := Page.form pg;
       Page.world := atTime (now (Page.world pg) + 1) (Page.world pg);
       Page.suspended := Page.suspended pg;
       Page.mounted := Page.mounted pg |}.
Proof.
  intros H. unfold Page.tick.
  rewrite filter_none, advance_idle; [reflexivity | exact H |].
  eapply Forall_impl; [|exact H]. intros t L. simpl in L.
  apply Z.leb_gt. exact L.
Qed.

Lemma page_elapse_idle (n : nat) (pg : Page.Page) :
  Forall (fun t => (now (Page.world pg) + Z.of_nat n < due t)%Z)
         (timers (Page.world pg)) ->
  Page.elapse n pg
  = {| Page.form := Page.form pg;
       Page.world := atTime (now (Page.world pg) + Z.of_nat n) (Page.world pg);
       Page.suspended := Page.suspended pg;
       Page.mounted := Page.mounted pg |}.
Proof.
  revert pg. induction n as [|n IH]; intros pg H.
  - cbn [Page.elapse]. rewrite Z.add_0_r, atTime_now. now destruct pg.
  - cbn [Page.elapse]. rewrite page_tick_idle.
    + rewrite IH.
      * cbn [Page.form Page.world Page.suspended Page.mounted].
        unfold atTime. cbn [now this timers promises delivered console draws].
        do 2 f_equal. lia.
      * cbn [Page.world]. unfold atTime. cbn [now timers].
        eapply Forall_impl; [|exact H]. intros t L. simpl in L. lia.
    + eapply Forall_impl; [|exact H]. intros t L. simpl in L. lia.
Qed.

Lemma page_elapse_plus (m n : nat) (pg : Page.Page) :
  Page.elapse (m + n) pg = Page.elapse n (Page.elapse m pg).
Proof.
  revert pg. induction m as [|m IH]; intros pg; simpl; [reflexivity|].
  apply IH.
Qed.

(** The one timer of the queue is due. *)
Lemma page_tick_one (pg : Page.Page) (t : Timer) :
  timers (Page.world pg) = [t] -> due t = (now (Page.world pg) + 1)%Z ->
  let w1 := {| this := this (Page.world pg);
               now := now (Page.world pg) + 1; timers := [];
               promises := promises (Page.world pg);
               delivered := delivered (Page.world pg);
               console := console (Page.world pg);
               draws := draws (Page.world pg) |} in
  Page.tick pg
  = Page.absorb (exec (fire t) w1)
      {| Page.form := Page.form pg; Page.world := w1;
         Page.suspended := Page.suspended pg;
         Page.mounted := Page.mounted pg |}.
Proof.
  intros T D w1. unfold Page.tick, advance. rewrite T. cbn [filter].
  rewrite D, Z.leb_refl. reflexivity.
Qed.

Lemma handleSensorData_window (d : SensorData) (f : Form) :
  handleSensorData d f
  = setSensorData (lastn 20 (chartDataRef f ++ [d]))
      (setChartDataRef (lastn 20 (chartDataRef f ++ [d])) f).
Proof.
  unfold handleSensorData, lastn.
  set (u := chartDataRef f ++ [d]).
  destruct (Nat.ltb_spec 20 (List.length u)) as [H|H]; simpl.
  - unfold JS.slice.
    destruct (Z.ltb_spec (Z.of_nat (List.length u) - 20) 0); [lia|].
    replace (Z.to_nat (Z.min (Z.of_nat (List.length u) - 20)
                             (Z.of_nat (List.length u))))
      with (List.length u - 20) by lia.
    reflexivity.
  - replace (List.length u - 20) with 0 by lia. reflexivity.
Qed.

Lemma recording_sample (a : string) (l : list SensorData) (d : SensorData) :
  handleSensorData d (recording a (lastn 20 l))
  = recording a (lastn 20 (l ++ [d])).
Proof.
  rewrite handleSensorData_window. unfold recording.
  cbn [chartDataRef setSensorData setChartDataRef selectedActivity newActivity
       activities isCollecting showNewActivityInput toasts].
  now rewrite lastn_snoc.
Qed.

Lemma readings_S (t0 : Z) (k : nat) :
  readings t0 (S k)
  = readings t0 k ++ [mockData (6 * k) (t0 + 1500 + 1000 * Z.of_nat k)].
Proof. unfold readings. now rewrite samplesOf_S, map_app. Qed.

Lemma skipn_past {A} (l l' : list A) : skipn (List.length l) (l ++ l') = l'.
Proof.
  rewrite skipn_app, skipn_all, Nat.sub_diag. reflexivity.
Qed.

(** The page right after an activity was chosen and "Start Recording"
    pressed. *)
Lemma page_started (t0 : Z) (a : string) :
  a <> "" ->
  Page.play [Page.Do (ClickBadge a); Page.Do ClickStart] (Page.load t0)
  = {| Page.form := setSelectedActivity a mount;
       Page.world := run [Configure (configAt t0); Connect Page.observer]
                         (boot t0);
       Page.suspended := [(0, a)];
       Page.mounted := true |}.
Proof.
  intros A. destruct a as [|c a]; [congruence|]. reflexivity.
Qed.

(** The page while the generator runs, [k] samples in. *)
Lemma page_connected (t0 : Z) (a : string) :
  a <> "" ->
  Page.elapse 500
    (Page.play [Page.Do (ClickBadge a); Page.Do ClickStart] (Page.load t0))
  = {| Page.form := recording a (lastn 20 (readings t0 0));
       Page.world := streaming (configAt t0) Page.observer t0 0 (t0 + 500);
       Page.suspended := [];
       Page.mounted := true |}.
Proof.
  intros A. rewrite (page_started t0 a A), connect_on_fresh.
  change 500 with (499 + 1). rewrite (page_elapse_plus 499 1).
  rewrite (page_elapse_idle 499);
    [|constructor; [cbn [now due Page.world]; lia | constructor]].
  change (Page.elapse 1 ?w) with (Page.tick w).
  rewrite (page_tick_one _ {| due := t0 + 500; task := ConnectTimeout 0 |});
    [|reflexivity | cbn [now due atTime Page.world]; lia].
  cbn [Page.world Page.form Page.suspended Page.mounted atTime
       this now timers promises delivered console draws].
  replace (t0 + Z.of_nat 499 + 1)%Z with (t0 + 500)%Z by lia.
  reflexivity.
Qed.

Lemma page_second (t0 : Z) (a : string) (k : nat) :
  Page.elapse 1000
    {| Page.form := recording a (lastn 20 (readings t0 k));
       Page.world := streaming (configAt t0) Page.observer t0 k
                       (t0 + 500 + 1000 * Z.of_nat k);
       Page.suspended := [];
       Page.mounted := true |}
  = {| Page.form := recording a (lastn 20 (readings t0 (S k)));
       Page.world := streaming (configAt t0) Page.observer t0 (S k)
                       (t0 + 500 + 1000 * Z.of_nat (S k));
       Page.suspended := [];
       Page.mounted := true |}.
Proof.
  change 1000 with (999 + 1). rewrite (page_elapse_plus 999 1).
  rewrite (page_elapse_idle 999);
    [|constructor; [cbn [now due streaming Page.world]; lia | constructor]].
  change (Page.elapse 1 ?w) with (Page.tick w).
  rewrite (page_tick_one _ {| due := t0 + 500 + 1000 * (Z.of_nat k + 1);
                              task := MockInterval |});
    [|reflexivity | cbn [now due atTime streaming Page.world]; lia].
  rewrite (fire_interval_on _ _ Page.observer); [|reflexivity..].
  unfold Page.absorb.
  cbn [Page.world Page.form Page.suspended Page.mounted atTime streaming
       this now timers promises delivered console draws app].
  rewrite skipn_past. cbn [fold_left snd Page.resume fst].
  rewrite recording_sample.
  replace (t0 + 500 + 1000 * Z.of_nat k + Z.of_nat 999 + 1)%Z
    with (t0 + 1500 + 1000 * Z.of_nat k)%Z by lia.
  rewrite <- readings_S.
  unfold streaming. rewrite samplesOf_S.
  replace (t0 + 1500 + 1000 * Z.of_nat k + 1000)%Z
    with (t0 + 500 + 1000 * (Z.of_nat (S k) + 1))%Z by lia.
  replace (t0 + 500 + 1000 * Z.of_nat (S k))%Z
    with (t0 + 1500 + 1000 * Z.of_nat k)%Z by lia.
  replace (6 + 6 * k) with (6 * S k) by lia.
  reflexivity.
Qed.

Lemma page_seconds (t0 : Z) (a : string) (k : nat) :
  a <> "" ->
  Page.elapse (500 + 1000 * k)
    (Page.play [Page.Do (ClickBadge a); Page.Do ClickStart] (Page.load t0))
  = {| Page.form := recording a (lastn 20 (readings t0 k));
       Page.world := streaming (configAt t0) Page.observer t0 k
                       (t0 + 500 + 1000 * Z.of_nat k);
       Page.suspended := [];
       Page.mounted := true |}.
Proof.
  intros A. induction k as [|k IH].
  - rewrite Nat.mul_0_r, Nat.add_0_r, (page_connected t0 a A).
    do 2 f_equal. lia.
  - rewrite Nat.mul_succ_r, Nat.add_assoc, page_elapse_plus, IH.
    apply page_second.
Qed.

Lemma page_streaming (t0 : Z) (a : string) (k r : nat) :
  a <> "" -> r < 1000 ->
  Page.elapse (500 + 1000 * k + r)
    (Page.play [Page.Do (ClickBadge a); Page.Do ClickStart] (Page.load t0))
  = {| Page.form := recording a (lastn 20 (readings t0 k));
       Page.world := streaming (configAt t0) Page.observer t0 k
                       (t0 + 500 + 1000 * Z.of_nat k + Z.of_nat r);
       Page.suspended := [];
       Page.mounted := true |}.
Proof.
  intros A R. rewrite page_elapse_plus, (page_seconds t0 a k A).
  rewrite page_elapse_idle; [reflexivity|].
  constructor; [cbn [now due streaming Page.world]; lia | constructor].
Qed.

Lemma play_app (l1 l2 : list Page.Event) (pg : Page.Page) :
  Page.play (l1 ++ l2) pg = Page.play l2 (Page.play l1 pg).
Proof. apply fold_left_app. Qed.

(** X10.  On a fresh page the user picks activity [a] and presses
    "Start Recording".  For the first 499 ms the form is unchanged and
    [startCollection] waits for [connect].  From 500 ms on the form is
    recording (one toast, "Data Collection Started"), and after
    [500 + 1000 k + r] ms with [r < 1000] the generator has produced
    exactly [k] samples, one per second from 1500 ms on, and both the
    window and the displayed data hold the last twenty of them. *)
Theorem page_records_the_stream (t0 : Z) (a : string) (n k r : nat) :
  a <> "" ->
  let pg := Page.play [Page.Do (ClickBadge a); Page.Do ClickStart]
              (Page.load t0) in
  (n < 500 ->
   Page.form (Page.elapse n pg) = setSelectedActivity a mount
   /\ Page.suspended (Page.elapse n pg) = [(0, a)])
  /\ (r < 1000 ->
      Page.play [Page.Pass (500 + 1000 * k + r)] pg
      = {| Page.form := recording a (lastn 20 (readings t0 k));
           Page.world := streaming (configAt t0) Page.observer t0 k
                           (t0 + 500 + 1000 * Z.of_nat k + Z.of_nat r);
           Page.suspended := [];
           Page.mounted := true |})
  /\ List.length (readings t0 k) = k.
Proof.
  intros A pg. split; [|split].
  - intros N. subst pg. rewrite (page_started t0 a A), connect_on_fresh.
    rewrite page_elapse_idle; [now split|].
    constructor; [cbn [now due Page.world]; lia | constructor].
  - intros R. apply (page_streaming t0 a k r A R).
  - unfold readings, samplesOf. now rewrite !length_map, length_seq.
Qed.

(** Nothing reaches a page that waits for no promise from a world
    that has not moved. *)
Lemma absorb_same (pg : Page.Page) :
  Page.suspended pg = [] -> Page.absorb (Page.world pg) pg = pg.
Proof.
  intros H. unfold Page.absorb. destruct pg as [f w s m]. simpl in *.
  subst s. destruct m; [|reflexivity].
  rewrite skipn_all. reflexivity.
Qed.

Lemma page_tick_off (pg : Page.Page) :
  isConnected (this (Page.world pg)) = false ->
  Forall (fun k => task k = MockInterval) (timers (Page.world pg)) ->
  Page.suspended pg = [] ->
  Page.tick pg
  = {| Page.form := Page.form pg; Page.world := advance (Page.world pg);
       Page.suspended := []; Page.mounted := Page.mounted pg |}.
Proof.
  intros I T H. unfold Page.tick. rewrite H.
  set (l := filter _ _).
  assert (L : Forall (fun k => task k = MockInterval) l).
  { subst l. rewrite Forall_forall in *. intros k F.
    apply filter_In in F. apply T, F. }
  set (g := {| Page.form := _ |}).
  assert (G : isConnected (this (Page.world g)) = false /\ Page.suspended g = [])
    by (split; [exact I | reflexivity]).
  clearbody l g. revert g G.
  induction L as [|k l K _ IH]; intros g [G1 G2]; [reflexivity|].
  cbn [fold_left]. rewrite (fire_interval_off k _ K G1), (absorb_same g G2).
  apply IH. now split.
Qed.

Lemma page_elapse_off (n : nat) (pg : Page.Page) :
  isConnected (this (Page.world pg)) = false ->
  Forall (fun k => task k = MockInterval) (timers (Page.world pg)) ->
  Page.suspended pg = [] ->
  Page.form (Page.elapse n pg) = Page.form pg
  /\ Page.suspended (Page.elapse n pg) = []
  /\ Page.mounted (Page.elapse n pg) = Page.mounted pg
  /\ delivered (Page.world (Page.elapse n pg)) = delivered (Page.world pg)
  /\ isConnected (this (Page.world (Page.elapse n pg))) = false.
Proof.
  revert pg. induction n as [|n IH]; intros pg I T H; cbn [Page.elapse].
  - now repeat split.
  - rewrite (page_tick_off pg I T H).
    apply (IH {| Page.form := Page.form pg;
                 Page.world := advance (Page.world pg);
                 Page.suspended := [];
                 Page.mounted := Page.mounted pg |}).
    + exact I.
    + cbn [Page.world advance timers]. rewrite Forall_forall in *.
      intros k K. apply filter_In in K. apply T, K.
    + reflexivity.
Qed.

Lemma readings_length (t0 : Z) (k : nat) : List.length (readings t0 k) = k.
Proof. unfold readings, samplesOf. now rewrite !length_map, length_seq. Qed.

(** X11.  The whole session on a fresh page: pick [a], start, let [k]
    samples arrive, stop, wait as long as one likes, save.  Stopping
    reports the number of samples in the window, [min k 20], not the
    number generated; no sample arrives after the stop, the service
    stays disconnected, and [saveData] then reports the same count
    for [a], or "No Data" when recording was stopped before the first
    sample. *)
Theorem page_stop_then_save (t0 : Z) (a : string) (k r n : nat) :
  a <> "" -> r < 1000 ->
  let pg := Page.play [Page.Do (ClickBadge a); Page.Do ClickStart;
                       Page.Pass (500 + 1000 * k + r);
                       Page.Do ClickStop; Page.Pass n; Page.Do ClickSave]
              (Page.load t0) in
  let m := Nat.min k 20 in
  Page.form pg
  = toast (if k =? 0 then noDataToast else dataSavedToast m a)
      (toast (stoppedToast m a)
         (setIsCollecting false (recording a (lastn 20 (readings t0 k)))))
  /\ delivered (Page.world pg) = samplesOf Page.observer t0 k
  /\ isConnected (this (Page.world pg)) = false.
Proof.
  intros A R pg m.
  assert (M : List.length (lastn 20 (readings t0 k)) = m)
    by now rewrite lastn_length, readings_length.
  subst pg.
  change [Page.Do (ClickBadge a); Page.Do ClickStart;
          Page.Pass (500 + 1000 * k + r);
          Page.Do ClickStop; Page.Pass n; Page.Do ClickSave]
    with ([Page.Do (ClickBadge a); Page.Do ClickStart]
          ++ [Page.Pass (500 + 1000 * k + r); Page.Do ClickStop; Page.Pass n;
              Page.Do ClickSave]).
  rewrite play_app.
  change (Page.play [Page.Pass (500 + 1000 * k + r); Page.Do ClickStop;
                     Page.Pass n; Page.Do ClickSave] ?p)
    with (Page.call ClickSave
            (Page.elapse n
               (Page.call ClickStop (Page.elapse (500 + 1000 * k + r) p)))).
  rewrite (page_streaming t0 a k r A R).
  set (w := streaming _ _ _ _ _).
  set (f := recording a (lastn 20 (readings t0 k))).
  assert (C : chartDataRef f = lastn 20 (readings t0 k)) by reflexivity.
  assert (S1 : Page.call ClickStop
                 {| Page.form := f; Page.world := w; Page.suspended := [];
                    Page.mounted := true |}
               = {| Page.form := toast (stoppedToast m a)
                                   (setIsCollecting false f);
                    Page.world := exec disconnect w;
                    Page.suspended := [];
                    Page.mounted := true |}).
  { unfold Page.call, Page.absorb.
    cbn [Page.form Page.world Page.suspended Page.mounted].
    replace (delivered (exec disconnect w)) with (delivered w)
      by (symmetry; apply disconnect_delivered).
    rewrite skipn_all. cbn [fold_left Page.resume fst snd Page.withForm
      Page.form Page.world Page.suspended Page.mounted].
    unfold stopCollection. rewrite C, M. reflexivity. }
  rewrite S1.
  set (pg1 := {| Page.form := toast _ _ |}).
  destruct (page_elapse_off n pg1) as [F [_ [_ [D I]]]].
  - reflexivity.
  - cbn [pg1 Page.world]. rewrite disconnect_timers.
    repeat constructor.
  - reflexivity.
  - unfold Page.call, Page.withForm.
    cbn [Page.form Page.world Page.suspended Page.mounted].
    split; [|split; [|exact I]].
    + rewrite F. cbn [pg1 Page.form step]. unfold saveData.
      cbn [toast setIsCollecting chartDataRef selectedActivity].
      rewrite C, M. subst m. destruct k as [|k]; reflexivity.
    + rewrite D. cbn [pg1 Page.world]. rewrite disconnect_delivered.
      reflexivity.
Qed.

(** *** The error path of [startCollection] *)














End Session.

(** ** Runs of the page on the fixed-point engine *)

Section PageRuns.

Import JS DataCollectionForm MQTTService.

Lemma page_records_the_stream_witness :
  "walking" <> ""
  /\ (let pg := Page.play (E := fixedPoint)
                  [Page.Do (ClickBadge "walking"); Page.Do ClickStart]
                  (Page.load 0) in
      (100 < 500 ->
       Page.form (Page.elapse (E := fixedPoint) 100 pg)
       = setSelectedActivity "walking" mount
       /\ Page.suspended (Page.elapse (E := fixedPoint) 100 pg)
          = [(0, "walking")])
      /\ (200 < 1000 ->
          Page.play (E := fixedPoint) [Page.Pass (500 + 1000 * 3 + 200)] pg
          = {| Page.form :=
                 recording "walking"
                   (lastn 20 (readings (E := fixedPoint) 0 3));
               Page.world :=
                 streaming (E := fixedPoint) (configAt 0) Page.observer 0 3
                   (0 + 500 + 1000 * Z.of_nat 3 + Z.of_nat 200);
               Page.suspended := [];
               Page.mounted := true |})
      /\ List.length (readings (E := fixedPoint) 0 3) = 3).
Proof.
  split; [discriminate|].
  apply (page_records_the_stream (E := fixedPoint) 0 "walking" 100 3 200).
  discriminate.
Defined.

Lemma page_stop_then_save_witness :
  "walking" <> "" /\ 200 < 1000
  /\ (let pg := Page.play (E := fixedPoint)
                  [Page.Do (ClickBadge "walking"); Page.Do ClickStart;
                   Page.Pass (500 + 1000 * 3 + 200);
                   Page.Do ClickStop; Page.Pass 2000; Page.Do ClickSave]
                  (Page.load 0) in
      let m := Nat.min 3 20 in
      Page.form pg
      = toast (if 3 =? 0 then noDataToast else dataSavedToast m "walking")
          (toast (stoppedToast m "walking")
             (setIsCollecting false
                (recording "walking"
                   (lastn 20 (readings (E := fixedPoint) 0 3)))))
      /\ delivered (Page.world pg)
         = samplesOf (E := fixedPoint) Page.observer 0 3
      /\ isConnected (this (Page.world pg)) = false).
Proof.
  split; [discriminate|]. split; [lia|].
  apply (page_stop_then_save (E := fixedPoint) 0 "walking" 3 200 2000);
    [discriminate | lia].
Defined.

Lemma connect_replaces_observer_witness :
  let w := exec (connect 1) (exec (configure formConfig) (boot 0)) in
  config (this w) <> None
  /\ exists l,
       delivered (elapse (E := fixedPoint) 1500 (exec (connect 2) w))
       = delivered w ++ l
       /\ Forall (fun cd => fst cd = 2) l.
Proof.
  split; [discriminate|].
  apply (connect_replaces_observer (E := fixedPoint)
           (exec (connect 1) (exec (configure formConfig) (boot 0))) 2 1500).
  discriminate.
Defined.


Lemma quick_reconnect_doubles_witness :
  100 < 500
  /\ (let t := (0 + 500 + 1000 * Z.of_nat 2 + Z.of_nat 100)%Z in
      let w := run (E := fixedPoint)
                 [Configure formConfig; Connect 1; Wait (500 + 1000 * 2 + 100);
                  Disconnect; Connect 2; Wait 1500] (boot 0) in
      delivered w
      = samplesOf (E := fixedPoint) 1 0 2
        ++ [(2, mockData (E := fixedPoint) (6 * 2) (t + 1000 - Z.of_nat 100));
            (2, mockData (E := fixedPoint) (6 + 6 * 2) (t + 1500))]
      /\ timers w
         = [{| due := t + 2000 - Z.of_nat 100; task := MockInterval |};
            {| due := t + 2500; task := MockInterval |}]
      /\ now w = (t + 1500)%Z).
Proof.
  split; [lia|].
  apply (quick_reconnect_doubles (E := fixedPoint) 0 formConfig 1 2 2 100).
  lia.
Defined.

End PageRuns.

(** ** services/mqttService.ts: the message listeners *)

Section Listeners.

Import mqttService.

Lemma listeners_snoc (c : nat) (topic : string) (l : list Request)
    (r : Request) :
  listeners c topic (l ++ [r])
  = listeners c topic l + listeners c topic [r].
Proof. unfold listeners. now rewrite filter_app, length_app. Qed.

Lemma perform_listeners (s : State) (c : nat) (topic : string) (call : Call) :
  client s = Some c ->
  call <> ConnectMqtt -> call <> DisconnectMqtt ->
  client (perform s call) = Some c
  /\ listeners c topic (requests (perform s call))
     = listeners c topic (requests s) + subscriptions topic [call].
Proof.
  intros C N1 N2.
  destruct call as [|t|t|t m|]; [congruence| | | |congruence]; simpl;
    unfold subscribeTopic, unsubscribeTopic, publishMessage;
    rewrite C; cbn [request client requests];
    (split; [exact C|]); rewrite ?listeners_snoc;
    unfold listeners, subscriptions; cbn [filter List.length];
    rewrite ?Nat.eqb_refl; cbn [andb].
  - destruct (t =? topic)%string; simpl; lia.
  - lia.
  - lia.
Qed.

(** X17.  [subscribeTopic] registers a new message listener on the
    client each time it is called, and nothing removes one:
    [unsubscribeTopic] only tells the broker.  While the module holds
    client [c], the listeners for a topic grow by one with every
    [subscribeTopic] of that topic, whatever is unsubscribed or
    published in between: subscribing, unsubscribing and subscribing
    again leaves two listeners for the topic. *)
Theorem listeners_accumulate
    (s : State) (c : nat) (topic : string) (calls : list Call) :
  client s = Some c ->
  ~ In ConnectMqtt calls -> ~ In DisconnectMqtt calls ->
  client (run calls s) = Some c
  /\ listeners c topic (requests (run calls s))
     = listeners c topic (requests s) + subscriptions topic calls.
Proof.
  revert s. induction calls as [|call calls IH]; intros s C N1 N2.
  - simpl. split; [exact C|]. unfold subscriptions. simpl. lia.
  - destruct (perform_listeners s c topic call C) as [C' L'].
    { intros ->. apply N1. now left. }
    { intros ->. apply N2. now left. }
    destruct (IH (perform s call) C') as [C'' L''].
    { intros X. apply N1. now right. }
    { intros X. apply N2. now right. }
    split; [exact C''|].
    change (run (call :: calls) s) with (run calls (perform s call)).
    rewrite L'', L'. unfold subscriptions. cbn [filter].
    destruct call as [|t|t|t m|]; cbn [List.length filter]; try lia.
    destruct (t =? topic)%string; cbn [List.length]; lia.
Qed.

Lemma listeners_accumulate_witness :
  let s := run [ConnectMqtt] load in
  let calls := [SubscribeTopic "esp32/sensor_data";
                UnsubscribeTopic "esp32/sensor_data";
                SubscribeTopic "esp32/sensor_data"] in
  client s = Some 0
  /\ client (run calls s) = Some 0
  /\ listeners 0 "esp32/sensor_data" (requests (run calls s))
     = listeners 0 "esp32/sensor_data" (requests s)
       + subscriptions "esp32/sensor_data" calls.
Proof.
  split; [reflexivity|].
  apply (listeners_accumulate (run [ConnectMqtt] load) 0 "esp32/sensor_data"
           [SubscribeTopic "esp32/sensor_data";
            UnsubscribeTopic "esp32/sensor_data";
            SubscribeTopic "esp32/sensor_data"]).
  - reflexivity.
  - intros [X|[X|[X|[]]]]; discriminate X.
  - intros [X|[X|[X|[]]]]; discriminate X.
Defined.

End Listeners.
